(** * InnerWorldApp infrastructure lambdas: secret rotation and Cognito triggers

    A shallow embedding of
    - [infrastructure/modules/secrets/rotate_secrets.py] (module [Rotation]),
    - [infrastructure/modules/cognito/cognito_triggers/*.py] (module [Cognito]),
    followed by the properties of the credential rotation state machine and of
    the identity-trigger failure policy. *)

From Stdlib Require Import ZArith NArith String Ascii List.
From stdpp Require Import gmap strings list fin_maps.

Local Open Scope string_scope.

(** ** Python exceptions shared by both lambdas *)

Inductive exn : Type :=
| ValueError (msg : string)
| NameError (name : string)
| KeyError (key : string)
| TypeError (msg : string)
| AttributeError (msg : string)
| IndexError (msg : string)
| JSONDecodeError (msg : string)
| ClientError (code : string).

(** [str(e)] as the handlers log it and put it in the error body. *)
Definition str_exn (e : exn) : string :=
  match e with
  | ValueError msg => msg
  | NameError name => "name '" +:+ name +:+ "' is not defined"
  | KeyError key => "'" +:+ key +:+ "'"
  | TypeError msg => msg
  | AttributeError msg => msg
  | IndexError msg => msg
  | JSONDecodeError msg => msg
  | ClientError code => code
  end.

Inductive result (A : Type) : Type :=
| Ok (a : A)
| Raise (e : exn).
Arguments Ok {A} a.
Arguments Raise {A} e.

(** ** State-and-exception monad: a Python function running against a world [W] *)

Definition M (W A : Type) : Type := W -> result A * W.

Definition ret {W A} (a : A) : M W A := fun w => (Ok a, w).

Definition raise {W A} (e : exn) : M W A := fun w => (Raise e, w).

Definition bind {W A B} (m : M W A) (k : A -> M W B) : M W B :=
  fun w => match m w with
           | (Ok a, w') => k a w'
           | (Raise e, w') => (Raise e, w')
           end.

(** [try: body except Exception as e: handler(e)]: effects performed before the
    exception stay performed. *)
Definition try_except {W A} (body : M W A) (handler : exn -> M W A) : M W A :=
  fun w => match body w with
           | (Ok a, w') => (Ok a, w')
           | (Raise e, w') => handler e w'
           end.

Declare Scope py_scope.
Delimit Scope py_scope with py.
Notation "x <- m ;; k" := (bind m (fun x => k))
  (at level 100, m at next level, right associativity) : py_scope.
Notation "m ;; k" := (bind m (fun _ => k))
  (at level 100, right associativity) : py_scope.

(** [m] only reads the state. *)
Definition reads {W A} (m : M W A) : Prop := forall w, (m w).2 = w.

(** When [m] raises, the state is the one it started from. *)
Definition unchanged_on_raise {W A} (m : M W A) : Prop :=
  forall w e w', m w = (Raise e, w') -> w' = w.

Definition never_raises {W A} (m : M W A) : Prop :=
  forall w, exists a w', m w = (Ok a, w').

Definition raises {A} (r : result A) : Prop :=
  match r with Raise _ => True | Ok _ => False end.

Module Rotation.

(** *** Secret Store *)

(** Stage labels are the strings the code passes to the client. *)
Definition AWSCURRENT : string := "AWSCURRENT".
Definition AWSPENDING : string := "AWSPENDING".
Definition AWSPREVIOUS : string := "AWSPREVIOUS".

(** One version of a secret.  [SecretString] is kept decoded: the value is a
    JSON object from field names to strings, which [json.loads] and
    [json.dumps] take back and forth without loss. *)
Record version : Type := mkVersion {
  SecretString : gmap string string;
  VersionStages : list string
}.

(** A secret: its versions, keyed by the store-assigned version id. *)
Abbreviation secret := (gmap string version).

Inductive api_call : Type :=
| GetSecretValue (SecretId : string) (VersionStage : option string)
| PutSecretValue (SecretId : string) (value : gmap string string) (VersionStage : string)
| DescribeSecret (SecretId : string)
| UpdateSecretVersionStage (SecretId : string) (VersionStage : string)
                           (MoveToVersionId : option string).

(** The world of the rotation lambda: the Secret Store, the operating
    system's random source read by the [secrets] module ([tape] holds the
    values it will deliver, [cursor] how many were consumed), the wall clock,
    and the record of every request sent to the store. *)
Record world : Type := mkWorld {
  secrets : gmap string secret;
  tape : N -> N;
  cursor : N;
  utcnow : string;
  api_calls : list api_call
}.

Definition set_secrets (s : gmap string secret) (w : world) : world :=
  mkWorld s (tape w) (cursor w) (utcnow w) (api_calls w).

(** The world after one more request was sent to the store. *)
Definition logged (c : api_call) (w : world) : world :=
  mkWorld (secrets w) (tape w) (cursor w) (utcnow w) (api_calls w ++ [c]).

(** The world after [n] more values were read from the random source. *)
Definition drawn (n : N) (w : world) : world :=
  mkWorld (secrets w) (tape w) (cursor w + n)%N (utcnow w) (api_calls w).

Definition log_call (c : api_call) : M world unit :=
  fun w => (Ok tt, logged c w).

Definition holds (stage : string) (v : version) : bool :=
  bool_decide (stage ∈ VersionStages v).

(** The versions of a secret that carry [stage], as (id, version) pairs. *)
Definition staged (stage : string) (s : secret) : list (string * version) :=
  map_to_list (filter (fun kv => holds stage kv.2 = true) s).

Definition with_secret {A} (SecretId : string) (k : secret -> M world A) : M world A :=
  fun w => match secrets w !! SecretId with
           | Some s => k s w
           | None => (Raise (ClientError "ResourceNotFoundException"), w)
           end.

(** Modelled from the spec: the Secret Store is an external collaborator (the
    boto3 [secretsmanager] client); its operations follow the store contract
    of the specification, section 6.  [GetVersion]: fails when no version
    carries the requested label; without a label the [CURRENT] one is read. *)
Definition get_secret_value (SecretId : string) (VersionStage : option string)
  : M world (string * version) :=
  (log_call (GetSecretValue SecretId VersionStage) ;;
   with_secret SecretId (fun s =>
     match staged (default AWSCURRENT VersionStage) s with
     | kv :: _ => ret kv
     | [] => raise (ClientError "ResourceNotFoundException")
     end))%py.

(** A version id no version of [s] has: one character longer than all of them. *)
Definition fresh_version_id (s : secret) : string :=
  String "v" (string_of_list_ascii
    (replicate (foldr Nat.max 0%nat (String.length <$> (map_to_list s).*1)) "0"%char)).

(** Modelled from the spec: [PutVersion] creates a new version tagged with
    exactly the given label and does not remove labels from other versions. *)
Definition put_secret_value (SecretId : string) (value : gmap string string)
    (VersionStage : string) : M world string :=
  (log_call (PutSecretValue SecretId value VersionStage) ;;
   with_secret SecretId (fun s =>
     let vid := fresh_version_id s in
     fun w => (Ok vid,
               set_secrets (<[SecretId := <[vid := mkVersion value [VersionStage]]> s]> (secrets w)) w)))%py.

(** Modelled from the spec: describe-version-stage-map; the response field
    [VersionIdsToStages] maps each version id to its stage labels. *)
Definition describe_secret (SecretId : string) : M world (gmap string (list string)) :=
  (log_call (DescribeSecret SecretId) ;;
   with_secret SecretId (fun s => ret (VersionStages <$> s)))%py.

Definition add_stage (stage : string) (v : version) : version :=
  if holds stage v then v
  else mkVersion (SecretString v) (VersionStages v ++ [stage]).

Definition remove_stage (stage : string) (v : version) : version :=
  mkVersion (SecretString v) (filter (fun l => l ≠ stage) (VersionStages v)).

(** The secret after the label [stage] moved to version [vid]. *)
Definition moved (stage vid : string) (v : version) (s : secret) : secret :=
  <[vid := add_stage stage v]> (remove_stage stage <$> s).

(** Modelled from the spec: move-stage-label, one atomic relabel.  The label is
    attached to the version [MoveToVersionId] and leaves every other version;
    the call fails when no version id is given or the id names no version. *)
Definition update_secret_version_stage (SecretId VersionStage : string)
    (MoveToVersionId : option string) : M world unit :=
  (log_call (UpdateSecretVersionStage SecretId VersionStage MoveToVersionId) ;;
   with_secret SecretId (fun s =>
     match MoveToVersionId with
     | None => raise (ClientError "ParamValidationError")
     | Some vid =>
         match s !! vid with
         | None => raise (ClientError "ResourceNotFoundException")
         | Some v =>
             fun w => (Ok tt,
                       set_secrets (<[SecretId := moved VersionStage vid v s]> (secrets w)) w)
         end
     end))%py.

(** *** The [secrets] module: values drawn from the random source *)

Definition randbelow (n : N) : M world N :=
  fun w => (Ok (tape w (cursor w) mod n)%N, drawn 1 w).

(** [secrets.choice(seq)] is [seq[randbelow(len(seq))]]. *)
Definition choice (seq : string) : M world ascii :=
  (i <- randbelow (N.of_nat (String.length seq)) ;;
   match String.get (N.to_nat i) seq with
   | Some c => ret c
   | None => raise (IndexError "Cannot choose from an empty sequence")
   end)%py.

(** [''.join(secrets.choice(alphabet) for _ in range(n))] *)
Fixpoint join_choices (alphabet : string) (n : nat) : M world string :=
  match n with
  | O => ret ""
  | S k => (c <- choice alphabet ;; rest <- join_choices alphabet k ;; ret (String c rest))%py
  end.

Fixpoint token_bytes (n : nat) : M world (list N) :=
  match n with
  | O => ret []
  | S k => (b <- randbelow 256 ;; rest <- token_bytes k ;; ret (b :: rest))%py
  end.

Definition urlsafe_digits : string :=
  "ABCDEFGHIJKLMNOPQRSTUVWXYZabcdefghijklmnopqrstuvwxyz0123456789-_".

Definition sextet (n : N) : ascii :=
  default "A"%char (String.get (N.to_nat (n mod 64)%N) urlsafe_digits).

(** [base64.urlsafe_b64encode(bs).rstrip(b'=')] *)
Fixpoint urlsafe_b64encode (bs : list N) : string :=
  match bs with
  | a :: b :: c :: rest =>
      let n := (a * 65536 + b * 256 + c)%N in
      String (sextet (n / 262144)) (String (sextet (n / 4096)) (String (sextet (n / 64))
        (String (sextet n) (urlsafe_b64encode rest))))
  | [a; b] =>
      let n := (a * 65536 + b * 256)%N in
      String (sextet (n / 262144)) (String (sextet (n / 4096)) (String (sextet (n / 64)) ""))
  | [a] =>
      let n := (a * 65536)%N in
      String (sextet (n / 262144)) (String (sextet (n / 4096)) "")
  | [] => ""
  end.

Definition token_urlsafe (nbytes : nat) : M world string :=
  (tok <- token_bytes nbytes ;; ret (urlsafe_b64encode tok))%py.

Definition ascii_letters : string :=
  "abcdefghijklmnopqrstuvwxyz" +:+ "ABCDEFGHIJKLMNOPQRSTUVWXYZ".
Definition digits : string := "0123456789".

(** *** rotate_secrets.py *)

(** The names bound in the module's global namespace: its imports ([json],
    [boto3], [os], [logging], [Dict], [Any]), its two assignments and its five
    functions.  No statement of the module binds [datetime]. *)
Definition module_globals : list string :=
  ["json"; "boto3"; "os"; "logging"; "Dict"; "Any"; "logger"; "secrets_client";
   "handler"; "create_secret"; "set_secret"; "test_secret"; "finish_secret"].

(** Evaluating a global name: [NameError] when the module does not bind it. *)
Definition load_global (name : string) : M world unit :=
  if bool_decide (name ∈ module_globals) then ret tt else raise (NameError name).

(** [str(datetime.utcnow().isoformat())] *)
Definition utcnow_isoformat : M world string :=
  (load_global "datetime" ;; fun w => (Ok (utcnow w), w))%py.

Definition contains (field : string) (d : gmap string string) : bool :=
  bool_decide (is_Some (d !! field)).

Definition create_secret (secret_arn : string) : M world unit :=
  try_except
    (current <- get_secret_value secret_arn None ;;
     let current_secret := SecretString current.2 in
     if contains "api_key" current_secret then
       ret tt
     else
       generated <-
         (if contains "password" current_secret then
            let alphabet := ascii_letters +:+ digits +:+ "!@#$%^&*" in
            new_password <- join_choices alphabet 32 ;;
            ret (Some (<["password" := new_password]> current_secret))
          else if contains "key" current_secret then
            new_key <- token_urlsafe 32 ;;
            ret (Some (<["key" := new_key]> current_secret))
          else
            ret None) ;;
       match generated with
       | None => ret tt
       | Some current_secret =>
           created_at <- utcnow_isoformat ;;
           put_secret_value secret_arn (<["created_at" := created_at]> current_secret)
                            AWSPENDING ;;
           ret tt
       end)%py
    (fun e => raise e).

Definition set_secret (secret_arn : string) : M world unit := ret tt.

(** [len] of a field value; the fields are ASCII strings. *)
Definition len (s : string) : nat := String.length s.

Definition test_secret (secret_arn : string) : M world unit :=
  try_except
    (pending <- get_secret_value secret_arn (Some AWSPENDING) ;;
     let secret_data := SecretString pending.2 in
     match secret_data !! "password" with
     | Some password =>
         if (len password <? 8)%nat then raise (ValueError "Password too short") else ret tt
     | None =>
         match secret_data !! "key" with
         | Some key =>
             if (len key <? 16)%nat then raise (ValueError "Key too short") else ret tt
         | None => ret tt
         end
     end)%py
    (fun e => raise e).

(** [l[0]] *)
Definition item0 {A} (l : list A) : M world A :=
  match l with
  | x :: _ => ret x
  | [] => raise (IndexError "list index out of range")
  end.

Definition finish_secret (secret_arn : string) : M world unit :=
  try_except
    (VersionIdsToStages <- describe_secret secret_arn ;;
     MoveToVersionId <-
       item0 (default [None] (map Some <$> VersionIdsToStages !! "AWSPENDING")) ;;
     update_secret_version_stage secret_arn AWSCURRENT MoveToVersionId)%py
    (fun e => raise e).

(** The invocation event: the two keys the handler reads. *)
Record event : Type := mkEvent {
  SecretId : option string;
  Step : option string
}.

(** The handler's return value, with [body] before [json.dumps]. *)
Record response : Type := mkResponse {
  statusCode : Z;
  body : list (string * string)
}.

(** Route to appropriate step handler (lines 44 to 53). *)
Definition route (step secret_arn : string) : M world unit :=
  if bool_decide (step = "createSecret") then create_secret secret_arn
  else if bool_decide (step = "setSecret") then set_secret secret_arn
  else if bool_decide (step = "testSecret") then test_secret secret_arn
  else if bool_decide (step = "finishSecret") then finish_secret secret_arn
  else raise (ValueError ("Unknown step: " +:+ step)).

Definition handler (ev : event) : M world response :=
  try_except
    (match SecretId ev with
     | None | Some "" => raise (ValueError "SecretId not provided in event")
     | Some secret_arn =>
         let step := default "createSecret" (Step ev) in
         route step secret_arn ;;
         ret (mkResponse 200
                [("message", "Successfully completed " +:+ step +:+ " for secret rotation");
                 ("secretArn", secret_arn)])
     end)%py
    (fun e => ret (mkResponse 500
                     [("error", str_exn e);
                      ("secretArn", default "unknown" (SecretId ev))])).

(** The Orchestrator: one handler invocation per event, in order. *)
Fixpoint invoke_all (evs : list event) (w : world) : world :=
  match evs with
  | [] => w
  | ev :: rest => invoke_all rest (handler ev w).2
  end.

(** *** Vocabulary of the rotation properties *)

(** The version a read of [stage] returns, if any. *)
Definition version_at (stage SecretId : string) (w : world) : option (string * version) :=
  match secrets w !! SecretId with
  | Some s => head (staged stage s)
  | None => None
  end.

Definition value_at (stage SecretId : string) (w : world) : option (gmap string string) :=
  (fun kv => SecretString kv.2) <$> version_at stage SecretId w.

(** At most one version of the secret holds [stage]. *)
Definition at_most_one (stage : string) (s : secret) : Prop :=
  map_Forall (fun i vi => stage ∈ VersionStages vi ->
    map_Forall (fun j vj => stage ∈ VersionStages vj -> i = j) s) s.

#[global] Instance at_most_one_dec stage s : Decision (at_most_one stage s).
Proof. unfold at_most_one. apply _. Defined.

(** The stage-label invariant of the data model, for every secret of the store. *)
Definition stage_invariant (w : world) : Prop :=
  map_Forall (fun _ s => at_most_one AWSCURRENT s /\ at_most_one AWSPENDING s) (secrets w).

#[global] Instance stage_invariant_dec w : Decision (stage_invariant w).
Proof. unfold stage_invariant. apply _. Defined.

(** The Secret Type Policy in the words of the specification, section 4.2:
    classification in the priority order api_key > password > key > unknown,
    and the validation rule keyed to that classification. *)
Inductive secret_kind : Type := ManualApiKey | PasswordBearing | KeyBearing | UnknownShape.

Definition classify (value : gmap string string) : secret_kind :=
  if contains "api_key" value then ManualApiKey
  else if contains "password" value then PasswordBearing
  else if contains "key" value then KeyBearing
  else UnknownShape.

Definition policy_rejects (value : gmap string string) : bool :=
  match classify value with
  | PasswordBearing => (len (default "" (value !! "password")) <? 8)%nat
  | KeyBearing => (len (default "" (value !! "key")) <? 16)%nat
  | ManualApiKey | UnknownShape => false
  end.

(** The two answers of the handler. *)
Definition success (step secret_arn : string) : response :=
  mkResponse 200 [("message", "Successfully completed " +:+ step +:+ " for secret rotation");
                  ("secretArn", secret_arn)].

Definition failure (e : exn) (ev : event) : response :=
  mkResponse 500 [("error", str_exn e); ("secretArn", default "unknown" (SecretId ev))].

(** The password alphabet: letters, digits and the fixed punctuation. *)
Definition password_alphabet : string := ascii_letters +:+ digits +:+ "!@#$%^&*".

(** [createSecret] on a secret that already has a [PENDING] version, as the
    idempotence requirement of the specification words it: success, nothing
    generated, and exactly one [PENDING] version afterwards. *)
Definition create_is_noop_on_pending (SecretId : string) (w : world) : Prop :=
  let out := create_secret SecretId w in
  out.1 = Ok tt /\ cursor out.2 = cursor w /\
  exists s, secrets out.2 !! SecretId = Some s /\ length (staged AWSPENDING s) = 1%nat.

(** The postcondition of [finishSecret] in the words of the specification. *)
Definition promoted (SecretId : string) (before after : world) : Prop :=
  (exists s, secrets after !! SecretId = Some s /\ length (staged AWSCURRENT s) = 1%nat /\
             staged AWSPENDING s = []) /\
  value_at AWSCURRENT SecretId after = value_at AWSPENDING SecretId before /\
  value_at AWSPREVIOUS SecretId after = value_at AWSCURRENT SecretId before.

End Rotation.

Module Cognito.

(** *** Events: JSON values as the Lambda runtime hands them over *)

#[local] Unset Elimination Schemes.
Inductive json : Type :=
| JNull
| JBool (b : bool)
| JNum (n : Z)
| JStr (s : string)
| JList (l : list json)
| JDict (d : list (string * json)).
#[local] Set Elimination Schemes.

(** A Python dict, keys in insertion order. *)
Abbreviation dict := (list (string * json)).

Fixpoint dict_get (key : string) (d : dict) : option json :=
  match d with
  | [] => None
  | (k, v) :: rest => if String.eqb k key then Some v else dict_get key rest
  end.

(** [d[key] = v]: replaces the value of an existing key, appends a new one. *)
Fixpoint dict_set (key : string) (v : json) (d : dict) : dict :=
  match d with
  | [] => [(key, v)]
  | (k, x) :: rest =>
      if String.eqb k key then (k, v) :: rest else (k, x) :: dict_set key v rest
  end.

(** [bool(v)] *)
Definition truthy (v : json) : bool :=
  match v with
  | JNull => false
  | JBool b => b
  | JNum n => negb (n =? 0)%Z
  | JStr s => negb (String.eqb s "")
  | JList l => match l with [] => false | _ => true end
  | JDict d => match d with [] => false | _ => true end
  end.

(** [v == 'literal'] *)
Definition eq_str (v : json) (literal : string) : bool :=
  match v with
  | JStr s => String.eqb s literal
  | _ => false
  end.

Section Objects.
Context {W : Type}.

(** [obj.get(key, dflt)]: only dicts have the method. *)
Definition get (obj : json) (key : string) (dflt : json) : M W json :=
  match obj with
  | JDict d => ret (default dflt (dict_get key d))
  | _ => raise (AttributeError "object has no attribute 'get'")
  end.

(** [obj[key]] with a string key *)
Definition getitem (obj : json) (key : string) : M W json :=
  match obj with
  | JDict d =>
      match dict_get key d with
      | Some v => ret v
      | None => raise (KeyError key)
      end
  | JList _ => raise (TypeError "list indices must be integers or slices, not str")
  | JStr _ => raise (TypeError "string indices must be integers")
  | _ => raise (TypeError "object is not subscriptable")
  end.

(** [obj[key] = v], returning the updated object *)
Definition setitem (obj : json) (key : string) (v : json) : M W json :=
  match obj with
  | JDict d => ret (JDict (dict_set key v d))
  | JList _ => raise (TypeError "list indices must be integers or slices, not str")
  | _ => raise (TypeError "object does not support item assignment")
  end.

(** [s.lower()]: only strings have the method. *)
Definition lower (obj : json) : M W string :=
  match obj with
  | JStr s => ret (string_of_list_ascii (map (fun c =>
                if ((65 <=? nat_of_ascii c) && (nat_of_ascii c <=? 90))%nat
                then ascii_of_nat (nat_of_ascii c + 32) else c) (list_ascii_of_string s)))
  | _ => raise (AttributeError "object has no attribute 'lower'")
  end.

(** [key in obj] with a string key *)
Fixpoint substring_of (p s : string) : bool :=
  match s with
  | EmptyString => String.prefix p s
  | String _ s' => String.prefix p s || substring_of p s'
  end.

Definition contains (key : string) (obj : json) : M W bool :=
  match obj with
  | JDict d => ret (bool_decide (is_Some (dict_get key d)))
  | JList l => ret (existsb (fun x => eq_str x key) l)
  | JStr s => ret (substring_of key s)
  | _ => raise (TypeError "argument is not iterable")
  end.

End Objects.

(** *** The DynamoDB resource of the post-confirmation and post-authentication
    triggers *)

Inductive table_request : Type :=
| PutItem (table : string) (Item : dict)
| UpdateItem (table : string) (Key : dict) (UpdateExpression : string)
             (ExpressionAttributeValues : dict).

(** The world of those two triggers: the event object, every request sent to
    DynamoDB so far, which requests the service refuses ([refused n] for the
    n-th one), the environment variable, and the clock. *)
Record aws : Type := mkAws {
  event : dict;
  requests : list table_request;
  refused : nat -> bool;
  PROJECT_NAME : option string;
  utcnow : string;
  timestamp : Z;
  today : string
}.

Definition send (r : table_request) : M aws unit :=
  fun w =>
    let w' := mkAws (event w) (requests w ++ [r]) (refused w) (PROJECT_NAME w)
                    (utcnow w) (timestamp w) (today w) in
    if refused w (length (requests w))
    then (Raise (ClientError "ProvisionedThroughputExceededException"), w')
    else (Ok tt, w').

Definition ask {A} (f : aws -> A) : M aws A := fun w => (Ok (f w), w).

(** [m] leaves the event object as it is. *)
Definition keeps_event {A} (m : M aws A) : Prop := forall w, event (m w).2 = event w.

(** [f"{os.environ.get('PROJECT_NAME', 'innerworld')}-suffix"] *)
Definition table_name (suffix : string) : M aws string :=
  (project <- ask PROJECT_NAME ;; ret (default "innerworld" project +:+ suffix))%py.

(** [json.loads(s)]: [parse] is the JSON grammar of the [json] module. *)
Definition json_loads {W} (parse : string -> option json) (s : json) : M W json :=
  match s with
  | JStr text =>
      match parse text with
      | Some v => ret v
      | None => raise (JSONDecodeError "Expecting value")
      end
  | _ => raise (TypeError "the JSON object must be str, bytes or bytearray")
  end.

(** [try: json.loads(s) except json.JSONDecodeError: fallback] *)
Definition json_loads_or {W} (parse : string -> option json) (s : json) (fallback : json)
  : M W json :=
  try_except (json_loads parse s)
    (fun e => match e with JSONDecodeError _ => ret fallback | _ => raise e end).

(** *** The triggers that only see the event: the state is the event object *)

Definition the_event : M dict json := fun event => (Ok (JDict event), event).

(** [event[outer][field] = v] *)
Definition set_in (outer field : string) (v : json) : M dict unit :=
  (event <- the_event ;;
   target <- getitem event outer ;;
   target' <- setitem target field v ;;
   fun event => (Ok tt, dict_set outer target' event))%py.

(** *** custom_message.py *)
Module CustomMessage.
Section Templates.

(** The message texts: the f-strings of the six customizers, as functions of
    the values they interpolate. *)
Variables signup_message resend_code_message forgot_password_message
  : json -> json -> string.
Variables update_attribute_message verify_attribute_message authentication_message
  : json -> string.

(** The state is the event object, which the customizers update in place. *)
Abbreviation world := dict.

(** [event['response'][field] = v] *)
Definition set_response (field : string) (v : json) : M world unit :=
  set_in "response" field v.

(** [event['request']['codeParameter']] *)
Definition code_parameter_of_event : M world json :=
  (event <- the_event ;;
   request <- getitem event "request" ;;
   getitem request "codeParameter")%py.

Definition customize_signup_message (user_attributes : json) : M world unit :=
  (given_name <- get user_attributes "given_name" (JStr "Friend") ;;
   code_parameter <- code_parameter_of_event ;;
   set_response "emailSubject" (JStr "Welcome to InnerWorld - Verify Your Email") ;;
   set_response "emailMessage" (JStr (signup_message given_name code_parameter)))%py.

Definition customize_resend_code_message (user_attributes : json) : M world unit :=
  (given_name <- get user_attributes "given_name" (JStr "Friend") ;;
   code_parameter <- code_parameter_of_event ;;
   set_response "emailSubject" (JStr "InnerWorld - Your New Verification Code") ;;
   set_response "emailMessage" (JStr (resend_code_message given_name code_parameter)))%py.

Definition customize_forgot_password_message (user_attributes : json) : M world unit :=
  (given_name <- get user_attributes "given_name" (JStr "Friend") ;;
   code_parameter <- code_parameter_of_event ;;
   set_response "emailSubject" (JStr "InnerWorld - Reset Your Password") ;;
   set_response "emailMessage" (JStr (forgot_password_message given_name code_parameter)))%py.

Definition customize_update_attribute_message (user_attributes : json) : M world unit :=
  (code_parameter <- code_parameter_of_event ;;
   set_response "emailSubject" (JStr "InnerWorld - Verify Your Email Change") ;;
   set_response "emailMessage" (JStr (update_attribute_message code_parameter)))%py.

Definition customize_verify_attribute_message (user_attributes : json) : M world unit :=
  (code_parameter <- code_parameter_of_event ;;
   set_response "emailSubject" (JStr "InnerWorld - Verify Your Information") ;;
   set_response "emailMessage" (JStr (verify_attribute_message code_parameter)))%py.

Definition customize_authentication_message (user_attributes : json) : M world unit :=
  (code_parameter <- code_parameter_of_event ;;
   set_response "emailSubject" (JStr "InnerWorld - Your Login Code") ;;
   set_response "emailMessage" (JStr (authentication_message code_parameter)))%py.

(** The [try] block of [handler]. *)
Definition handler_try : M world json :=
  (event <- the_event ;;
   user_id <- get event "userName" (JStr "") ;;
   request <- get event "request" (JDict []) ;;
   user_attributes <- get request "userAttributes" (JDict []) ;;
   trigger_source <- get event "triggerSource" (JStr "") ;;
   (if eq_str trigger_source "CustomMessage_SignUp" then
      customize_signup_message user_attributes
    else if eq_str trigger_source "CustomMessage_ResendCode" then
      customize_resend_code_message user_attributes
    else if eq_str trigger_source "CustomMessage_ForgotPassword" then
      customize_forgot_password_message user_attributes
    else if eq_str trigger_source "CustomMessage_UpdateUserAttribute" then
      customize_update_attribute_message user_attributes
    else if eq_str trigger_source "CustomMessage_VerifyUserAttribute" then
      customize_verify_attribute_message user_attributes
    else if eq_str trigger_source "CustomMessage_Authentication" then
      customize_authentication_message user_attributes
    else ret tt) ;;
   the_event)%py.

Definition handler : M world json :=
  try_except handler_try (fun e => the_event).

(** The six trigger sources with the subject and the body each one gets. *)
Definition email_for (trigger_source : string) (given_name code_parameter : json)
  : option (string * string) :=
  if String.eqb trigger_source "CustomMessage_SignUp" then
    Some ("Welcome to InnerWorld - Verify Your Email",
          signup_message given_name code_parameter)
  else if String.eqb trigger_source "CustomMessage_ResendCode" then
    Some ("InnerWorld - Your New Verification Code",
          resend_code_message given_name code_parameter)
  else if String.eqb trigger_source "CustomMessage_ForgotPassword" then
    Some ("InnerWorld - Reset Your Password",
          forgot_password_message given_name code_parameter)
  else if String.eqb trigger_source "CustomMessage_UpdateUserAttribute" then
    Some ("InnerWorld - Verify Your Email Change", update_attribute_message code_parameter)
  else if String.eqb trigger_source "CustomMessage_VerifyUserAttribute" then
    Some ("InnerWorld - Verify Your Information", verify_attribute_message code_parameter)
  else if String.eqb trigger_source "CustomMessage_Authentication" then
    Some ("InnerWorld - Your Login Code", authentication_message code_parameter)
  else None.

End Templates.
End CustomMessage.

(** *** post_confirmation.py ([os] and [datetime] are bound by the imports at
    the end of the module) *)
Module PostConfirmation.
Section Json.
Variable parse : string -> option json.

Definition default_preferences : json :=
  JDict [("personas_enabled", JList [JStr "courage"; JStr "comfort"; JStr "creative"; JStr "compass"]);
         ("session_reminders", JBool true);
         ("data_retention_days", JNum 30);
         ("privacy_mode", JStr "standard")].

Definition initialize_user_profile (user_id user_attributes : json) : M aws unit :=
  try_except
    (table <- table_name "-user-profiles" ;;
     preferences <- get user_attributes "custom:user_preferences" (JStr "{}") ;;
     preferences_data <- json_loads_or parse preferences default_preferences ;;
     email <- get user_attributes "email" (JStr "") ;;
     given_name <- get user_attributes "given_name" (JStr "") ;;
     family_name <- get user_attributes "family_name" (JStr "") ;;
     birthdate <- get user_attributes "birthdate" (JStr "") ;;
     consent_version <- get user_attributes "custom:consent_version" (JStr "1.0") ;;
     created_at <- ask utcnow ;;
     last_updated <- ask utcnow ;;
     send (PutItem table
             [("user_id", user_id); ("email", email); ("given_name", given_name);
              ("family_name", family_name); ("birthdate", birthdate);
              ("preferences", preferences_data); ("consent_version", consent_version);
              ("created_at", JStr created_at); ("last_updated", JStr last_updated);
              ("status", JStr "active"); ("session_count", JNum 0);
              ("total_conversation_time", JNum 0)]))%py
    (fun e => ret tt).

(** Both placeholders only write a log line. *)
Definition initialize_graph_context (user_id user_attributes : json) : M aws unit :=
  try_except (ret tt) (fun e => ret tt).

Definition send_welcome_notification (email user_attributes : json) : M aws unit :=
  try_except (ret tt) (fun e => ret tt).

Definition the_event : M aws json := fun w => (Ok (JDict (event w)), w).

Definition handler_try : M aws json :=
  (ev <- the_event ;;
   user_id <- get ev "userName" (JStr "") ;;
   request <- get ev "request" (JDict []) ;;
   user_attributes <- get request "userAttributes" (JDict []) ;;
   email <- get user_attributes "email" (JStr "") ;;
   initialize_user_profile user_id user_attributes ;;
   initialize_graph_context user_id user_attributes ;;
   send_welcome_notification email user_attributes ;;
   the_event)%py.

Definition handler : M aws json :=
  try_except handler_try (fun e => the_event).

End Json.
End PostConfirmation.

(** *** post_authentication.py ([datetime] is bound by the import at the end of
    the module, [os] by the imports inside the functions) *)
Module PostAuthentication.
Section Json.
Variable parse : string -> option json.

Definition update_user_login_info (user_id trigger_source : json) : M aws unit :=
  try_except
    (table <- table_name "-user-profiles" ;;
     now <- ask utcnow ;;
     send (UpdateItem table [("user_id", user_id)]
             "SET last_login = :timestamp, login_count = if_not_exists(login_count, :zero) + :one, last_login_source = :source"
             [(":timestamp", JStr now); (":zero", JNum 0); (":one", JNum 1);
              (":source", trigger_source)]))%py
    (fun e => ret tt).

Definition cache_user_context (user_id user_attributes : json) : M aws unit :=
  try_except
    (preferences <- get user_attributes "custom:user_preferences" (JStr "{}") ;;
     preferences_data <- json_loads_or parse preferences (JDict []) ;;
     email <- get user_attributes "email" (JStr "") ;;
     cached_at <- ask utcnow ;;
     seconds <- ask timestamp ;;
     table <- table_name "-user-cache" ;;
     send (PutItem table
             [("user_id", user_id); ("email", email); ("preferences", preferences_data);
              ("cached_at", JStr cached_at); ("ttl", JNum (seconds + 3600))]))%py
    (fun e => ret tt).

Definition update_session_metrics (user_id : json) : M aws unit :=
  try_except
    (table <- table_name "-session-metrics" ;;
     day <- ask today ;;
     now <- ask utcnow ;;
     send (UpdateItem table [("user_id", user_id); ("date", JStr day)]
             "SET login_count = if_not_exists(login_count, :zero) + :one, last_login = :timestamp"
             [(":zero", JNum 0); (":one", JNum 1); (":timestamp", JStr now)]))%py
    (fun e => ret tt).

Definition the_event : M aws json := fun w => (Ok (JDict (event w)), w).

Definition handler_try : M aws json :=
  (ev <- the_event ;;
   user_id <- get ev "userName" (JStr "") ;;
   request <- get ev "request" (JDict []) ;;
   user_attributes <- get request "userAttributes" (JDict []) ;;
   email <- get user_attributes "email" (JStr "") ;;
   trigger_source <- get ev "triggerSource" (JStr "") ;;
   update_user_login_info user_id trigger_source ;;
   cache_user_context user_id user_attributes ;;
   update_session_metrics user_id ;;
   the_event)%py.

Definition handler : M aws json :=
  try_except handler_try (fun e => the_event).

End Json.
End PostAuthentication.

(** *** pre_signup.py *)
Module PreSignup.
Section Library.

(** [datetime.strptime(s, '%Y-%m-%d').date()] as (year, month, day), [None]
    where it raises [ValueError]; [date.today()]; [json.dumps]. *)
Variable strptime : string -> option (Z * Z * Z).
Variable today : Z * Z * Z.
Variable json_dumps : json -> string.

Definition strptime_date (birthdate : json) : M dict (Z * Z * Z) :=
  match birthdate with
  | JStr s =>
      match strptime s with
      | Some d => ret d
      | None => raise (ValueError "time data does not match format '%Y-%m-%d'")
      end
  | _ => raise (TypeError "strptime() argument 1 must be str")
  end.

Definition validate_age (birthdate : json) : M dict bool :=
  try_except
    (birth_date <- strptime_date birthdate ;;
     let '(birth_year, birth_month, birth_day) := birth_date in
     let '(year, month, day) := today in
     let earlier := ((month <? birth_month) || ((month =? birth_month) && (day <? birth_day)))%Z in
     let age := (year - birth_year - (if earlier then 1 else 0))%Z in
     ret (13 <=? age)%Z)%py
    (fun e => match e with
              | ValueError _ | JSONDecodeError _ | TypeError _ => ret false
              | _ => raise e
              end).

(** [event['response']['userAttributes']] *)
Definition response_user_attributes : M dict json :=
  (event <- the_event ;;
   response <- getitem event "response" ;;
   getitem response "userAttributes")%py.

(** [event['response']['userAttributes'][key] = v].  After line 48 the
    response's [userAttributes] is the very object held by the request, so
    the update shows under both. *)
Definition set_user_attribute (key : string) (v : json) : M dict unit :=
  (attributes <- response_user_attributes ;;
   attributes' <- setitem attributes key v ;;
   set_in "response" "userAttributes" attributes' ;;
   set_in "request" "userAttributes" attributes')%py.

Definition default_preferences : json :=
  JDict [("personas_enabled", JList [JStr "courage"; JStr "comfort"; JStr "creative"; JStr "compass"]);
         ("session_reminders", JBool true);
         ("data_retention_days", JNum 30);
         ("privacy_mode", JStr "standard")].

Definition handler_try : M dict json :=
  (event <- the_event ;;
   user_name <- get event "userName" (JStr "unknown") ;;
   request <- get event "request" (JDict []) ;;
   user_attributes <- get request "userAttributes" (JDict []) ;;
   email <- get user_attributes "email" (JStr "") ;;
   birthdate <- get user_attributes "birthdate" JNull ;;
   (if truthy birthdate then
      old_enough <- validate_age birthdate ;;
      if old_enough then ret tt
      else raise (ValueError "Users must be 13 years or older to register")
    else ret tt) ;;
   trigger_source <- get event "triggerSource" JNull ;;
   (if eq_str trigger_source "PreSignUp_ExternalProvider" then
      set_in "response" "autoConfirmUser" (JBool true) ;;
      set_in "response" "autoVerifyEmail" (JBool true)
    else ret tt) ;;
   event <- the_event ;;
   request <- getitem event "request" ;;
   shared <- getitem request "userAttributes" ;;
   set_in "response" "userAttributes" shared ;;
   attributes <- response_user_attributes ;;
   has_consent <- contains "custom:consent_version" attributes ;;
   (if has_consent then ret tt
    else set_user_attribute "custom:consent_version" (JStr "1.0")) ;;
   attributes <- response_user_attributes ;;
   has_preferences <- contains "custom:user_preferences" attributes ;;
   (if has_preferences then ret tt
    else set_user_attribute "custom:user_preferences" (JStr (json_dumps default_preferences))) ;;
   the_event)%py.

Definition handler : M dict json :=
  try_except handler_try (fun e => raise e).

End Library.
End PreSignup.

(** *** pre_authentication.py *)
Module PreAuthentication.

Definition validate_user_status (user_id user_attributes : json) : M dict bool :=
  try_except
    (email <- get user_attributes "email" (JStr "") ;;
     if negb (truthy email) then ret false
     else
       verified <- get user_attributes "email_verified" (JStr "false") ;;
       lowered <- lower verified ;;
       let email_verified := String.eqb lowered "true" in
       ret true)%py
    (fun e => ret false).

(** Builds the log entry and writes it to the log, inside its own
    [try]/[except]; nothing else is touched. *)
Definition log_authentication_attempt (user_id trigger_source : json) (success : bool)
    (error : option string) : M dict unit :=
  try_except (ret tt) (fun e => ret tt).

Definition handler_try : M dict json :=
  (event <- the_event ;;
   user_id <- get event "userName" (JStr "") ;;
   request <- get event "request" (JDict []) ;;
   user_attributes <- get request "userAttributes" (JDict []) ;;
   email <- get user_attributes "email" (JStr "") ;;
   trigger_source <- get event "triggerSource" (JStr "") ;;
   in_good_standing <- validate_user_status user_id user_attributes ;;
   if negb in_good_standing then
     raise (ValueError "Account access has been restricted. Please contact support.")
   else
     log_authentication_attempt user_id trigger_source true None ;;
     the_event)%py.

Definition handler : M dict json :=
  try_except handler_try
    (fun e =>
       try_except
         (event <- the_event ;;
          user_id <- get event "userName" (JStr "") ;;
          trigger_source <- get event "triggerSource" (JStr "") ;;
          log_authentication_attempt user_id trigger_source false (Some (str_exn e)))
         (fun _ => ret tt) ;;
       raise e)%py.

End PreAuthentication.

(** *** Vocabulary of the trigger properties *)

(** [d.setdefault(key, v)]: the dict with [key] bound to [v] unless it is
    bound already. *)
Definition setdefault (key : string) (v : json) (d : dict) : dict :=
  match dict_get key d with
  | Some _ => d
  | None => dict_set key v d
  end.

(** [after] is [before] except, at most, for the listed fields of the object
    under the key [outer]. *)
Definition differs_within (outer : string) (fields : list string) (before after : dict) : Prop :=
  (forall key, key <> outer -> dict_get key after = dict_get key before) /\
  (after = before \/
   exists d d', dict_get outer before = Some (JDict d) /\
                dict_get outer after = Some (JDict d') /\
                forall field, field ∉ fields -> dict_get field d' = dict_get field d).

End Cognito.

(** ** Scenarios *)
Module Scenario.
Import Rotation.

Definition arn : string := "arn:aws:secretsmanager:us-east-1:000000000000:secret:db".

Definition entropy : N -> N := fun n => (n * 7 + 3)%N.

Definition store_of (s : secret) : world :=
  mkWorld {[arn := s]} entropy 0 "2024-01-01T00:00:00" [].

(** The secret of the first end-to-end scenario before rotation. *)
Definition fresh : world :=
  store_of {["v1" := mkVersion {["password" := "old"; "username" := "admin"]} [AWSCURRENT]]}.

(** Mid-cycle: a candidate is staged [PENDING] next to the [CURRENT] value. *)
Definition mid_cycle : world :=
  store_of {["v1" := mkVersion {["password" := "old"]} [AWSCURRENT];
             "v2" := mkVersion {["password" := "Xk3!Xk3!Xk3!Xk3!Xk3!Xk3!Xk3!Xk3!"]} [AWSPENDING]]}.

(** An externally issued credential that also carries a password field, with
    a manually seeded candidate. *)
Definition manual : world :=
  store_of {["v1" := mkVersion {["api_key" := "sk-live-0123456789abcdef"; "password" := "old-password"]}
                               [AWSCURRENT];
             "v2" := mkVersion {["api_key" := "sk-live-fedcba9876543210"; "password" := "short"]}
                               [AWSPENDING]]}.

(** The second end-to-end scenario: a five-character key seeded as [PENDING]. *)
Definition short_key : world :=
  store_of {["v1" := mkVersion {["key" := "0123456789abcdef0123456789abcdef"]} [AWSCURRENT];
             "v2" := mkVersion {["key" := "short"]} [AWSPENDING]]}.

Definition cycle : list event :=
  [mkEvent (Some arn) (Some "createSecret"); mkEvent (Some arn) (Some "setSecret");
   mkEvent (Some arn) (Some "testSecret"); mkEvent (Some arn) (Some "finishSecret")].

(** A secret of a shape the rotation does not recognise. *)
Definition opaque : world :=
  store_of {["v1" := mkVersion {["token" := "abc"; "owner" := "ops"]} [AWSCURRENT]]}.

(** An externally issued credential with no candidate staged. *)
Definition external : world :=
  store_of {["v1" := mkVersion {["api_key" := "sk-live-0123456789abcdef"]} [AWSCURRENT]]}.

(** The password the generator delivers from [entropy]. *)
Definition generated_password : string :=
  match (join_choices password_alphabet 32 fresh).1 with
  | Ok password => password
  | Raise _ => ""
  end.

(** The key the generator delivers from [entropy]. *)
Definition generated_key : string :=
  match (token_urlsafe 32 fresh).1 with
  | Ok key => key
  | Raise _ => ""
  end.

(** Candidates holding the generated values, staged by hand. *)
Definition staged_password : world :=
  store_of {["v1" := mkVersion {["password" := "old"; "username" := "admin"]} [AWSCURRENT];
             "v2" := mkVersion {["password" := generated_password; "username" := "admin"]}
                               [AWSPENDING]]}.

Definition staged_key : world :=
  store_of {["v1" := mkVersion {["key" := "0123456789abcdef0123456789abcdef"]} [AWSCURRENT];
             "v2" := mkVersion {["key" := generated_key]} [AWSPENDING]]}.

(** A store whose candidate version happens to carry the id "AWSPENDING". *)
Definition named : world :=
  store_of {["v1" := mkVersion {["password" := "old"]} [AWSCURRENT];
             "AWSPENDING" := mkVersion {["password" := "Xk3!Xk3!Xk3!Xk3!Xk3!Xk3!Xk3!Xk3!"]}
                                       [AWSPENDING]]}.

(** Identity-trigger events. *)
Import Cognito.

(** A sign-up message request that lacks the verification code. *)
Definition signup_without_code : dict :=
  [("userName", JStr "ada"); ("triggerSource", JStr "CustomMessage_SignUp");
   ("request", JDict [("userAttributes", JDict [("given_name", JStr "Ada")])]);
   ("response", JDict [])].

(** A registration of an eight-year-old. *)
Definition child_signup : dict :=
  [("userName", JStr "kid"); ("triggerSource", JStr "PreSignUp_SignUp");
   ("request", JDict [("userAttributes",
                       JDict [("email", JStr "kid@example.org"); ("birthdate", JStr "2015-06-01")])]);
   ("response", JDict [])].

Definition strptime (s : string) : option (Z * Z * Z) :=
  if String.eqb s "2015-06-01" then Some (2015, 6, 1)%Z else None.

Definition today : Z * Z * Z := (2024, 1, 15)%Z.

(** A sign-in of a user without an email attribute. *)
Definition login_without_email : dict :=
  [("userName", JStr "bob"); ("triggerSource", JStr "PreAuthentication_Authentication");
   ("request", JDict [("userAttributes", JDict [("email_verified", JStr "true")])]);
   ("response", JDict [])].

(** A confirmed user, with DynamoDB refusing every request. *)
Definition outage : aws :=
  mkAws [("userName", JStr "ada");
         ("request", JDict [("userAttributes", JDict [("email", JStr "ada@example.org")])])]
        [] (fun _ => true) None "2024-01-15T10:00:00" 1705312800 "2024-01-15".

(** A password reset message request. *)
Definition forgot_password : dict :=
  [("userName", JStr "ada"); ("triggerSource", JStr "CustomMessage_ForgotPassword");
   ("request", JDict [("userAttributes", JDict [("given_name", JStr "Ada")]);
                      ("codeParameter", JStr "{####}")]);
   ("response", JDict [("smsMessage", JNull); ("emailMessage", JNull); ("emailSubject", JNull)])].

(** A message request of a trigger source the handler does not know. *)
Definition admin_create_user : dict :=
  [("userName", JStr "ada"); ("triggerSource", JStr "CustomMessage_AdminCreateUser");
   ("request", JDict [("codeParameter", JStr "{####}"); ("usernameParameter", JStr "{username}")]);
   ("response", JDict [("smsMessage", JNull); ("emailMessage", JNull); ("emailSubject", JNull)])].

(** A registration through an external provider, without a birthdate. *)
Definition apple_signup : dict :=
  [("userName", JStr "apple_001"); ("triggerSource", JStr "PreSignUp_ExternalProvider");
   ("request", JDict [("userAttributes",
                       JDict [("email", JStr "ada@example.org");
                              ("custom:consent_version", JStr "2.0")])]);
   ("response", JDict [("autoConfirmUser", JBool false)])].

(** A sign-in of a user whose email is not verified. *)
Definition login_unverified : dict :=
  [("userName", JStr "bob"); ("triggerSource", JStr "PreAuthentication_Authentication");
   ("request", JDict [("userAttributes",
                       JDict [("email", JStr "bob@example.org"); ("email_verified", JStr "false")])])].


End Scenario.

(** ** Properties of the rotation state machine *)
Module RotationProperties.
Import Rotation.

Ltac py_unfold :=
  unfold try_except, bind, ret, raise, log_call, with_secret in *.

(** *** How each store request runs *)

Lemma get_secret_value_run SecretId stage w :
  get_secret_value SecretId stage w =
  (match version_at (default AWSCURRENT stage) SecretId w with
   | Some kv => Ok kv
   | None => Raise (ClientError "ResourceNotFoundException")
   end, logged (GetSecretValue SecretId stage) w).
Proof.
  unfold get_secret_value, version_at. py_unfold. simpl.
  destruct (secrets w !! SecretId) as [s|]; [|reflexivity].
  destruct (staged (default AWSCURRENT stage) s); reflexivity.
Qed.

Lemma describe_secret_run SecretId w :
  describe_secret SecretId w =
  (match secrets w !! SecretId with
   | Some s => Ok (VersionStages <$> s)
   | None => Raise (ClientError "ResourceNotFoundException")
   end, logged (DescribeSecret SecretId) w).
Proof.
  unfold describe_secret. py_unfold. simpl.
  destruct (secrets w !! SecretId); reflexivity.
Qed.

(** *** The random source *)

Lemma get_in_range (s : string) (i : nat) :
  (i < String.length s)%nat ->
  exists c, String.get i s = Some c /\ In c (list_ascii_of_string s).
Proof.
  revert i. induction s as [|a s IH]; intros i Hi; simpl in *; [lia|].
  destruct i as [|i].
  - exists a. split; [reflexivity | now left].
  - destruct (IH i) as (c & Hc & Hin); [lia|].
    exists c. split; [assumption | now right].
Qed.

Lemma choice_run (seq : string) w :
  seq <> "" ->
  exists c, choice seq w = (Ok c, drawn 1 w) /\ In c (list_ascii_of_string seq).
Proof.
  intros Hne. unfold choice, randbelow. py_unfold.
  assert (Hlen : (0 < String.length seq)%nat) by (destruct seq; simpl; [congruence | lia]).
  destruct (get_in_range seq (N.to_nat (tape w (cursor w) mod N.of_nat (String.length seq))))
    as (c & Hc & Hin).
  { pose proof (N.mod_upper_bound (tape w (cursor w)) (N.of_nat (String.length seq))). lia. }
  exists c. rewrite Hc. split; [reflexivity | assumption].
Qed.

Lemma drawn_drawn n m w : drawn n (drawn m w) = drawn (m + n) w.
Proof. unfold drawn. simpl. f_equal. lia. Qed.

Lemma drawn_0 w : drawn 0 w = w.
Proof. destruct w. unfold drawn. simpl. f_equal. lia. Qed.

(** Generation always delivers: [n] characters, each from the alphabet, for
    [n] values read from the random source. *)
Lemma join_choices_run (alphabet : string) (n : nat) w :
  alphabet <> "" ->
  exists pw, join_choices alphabet n w = (Ok pw, drawn (N.of_nat n) w) /\
             String.length pw = n /\
             Forall (fun c => In c (list_ascii_of_string alphabet)) (list_ascii_of_string pw).
Proof.
  intros Hne. revert w. induction n as [|n IH]; intros w.
  - exists "". simpl. rewrite drawn_0. repeat split. constructor.
  - destruct (choice_run alphabet w Hne) as (c & Hc & Hin).
    destruct (IH (drawn 1 w)) as (pw & Hpw & Hlen & Hall).
    exists (String c pw). cbn [join_choices]. unfold bind at 1. rewrite Hc.
    unfold bind at 1. rewrite Hpw. unfold ret. rewrite drawn_drawn.
    replace (1 + N.of_nat n)%N with (N.of_nat (S n)) by lia.
    repeat split; simpl; [congruence | constructor; assumption].
Qed.

Lemma token_bytes_run (n : nat) w :
  exists bs, token_bytes n w = (Ok bs, drawn (N.of_nat n) w) /\ length bs = n.
Proof.
  revert w. induction n as [|n IH]; intros w.
  - exists []. simpl. rewrite drawn_0. split; reflexivity.
  - destruct (IH (drawn 1 w)) as (bs & Hbs & Hlen).
    exists ((tape w (cursor w) mod 256)%N :: bs). cbn [token_bytes].
    unfold bind at 1. unfold randbelow at 1. unfold bind at 1. rewrite Hbs.
    unfold ret. rewrite drawn_drawn.
    replace (1 + N.of_nat n)%N with (N.of_nat (S n)) by lia.
    split; simpl; congruence.
Qed.

Lemma utcnow_isoformat_run w : utcnow_isoformat w = (Raise (NameError "datetime"), w).
Proof. reflexivity. Qed.

(** *** What each step does, case by case *)

#[local] Arguments join_choices : simpl never.
#[local] Arguments token_bytes : simpl never.
#[local] Arguments token_urlsafe : simpl never.
#[local] Arguments utcnow_isoformat : simpl never.

(** [createSecret]: decided by the [CURRENT] value alone.  Generation reads
    32 values from the random source; line 107 then evaluates the name
    [datetime], which the module never binds, so the step raises before
    [put_secret_value]. *)
Lemma create_secret_run SecretId w :
  create_secret SecretId w =
  let w1 := logged (GetSecretValue SecretId None) w in
  match value_at AWSCURRENT SecretId w with
  | None => (Raise (ClientError "ResourceNotFoundException"), w1)
  | Some value =>
      match classify value with
      | ManualApiKey | UnknownShape => (Ok tt, w1)
      | PasswordBearing | KeyBearing => (Raise (NameError "datetime"), drawn 32 w1)
      end
  end.
Proof.
  unfold create_secret, value_at, classify. unfold try_except, bind at 1.
  rewrite get_secret_value_run. simpl default.
  destruct (version_at AWSCURRENT SecretId w) as [[vid v]|]; simpl; [|reflexivity].
  destruct (contains "api_key" (SecretString v)); [reflexivity|].
  destruct (contains "password" (SecretString v)).
  - destruct (join_choices_run (ascii_letters +:+ digits +:+ "!@#$%^&*") 32
                (logged (GetSecretValue SecretId None) w)) as (pw & Hpw & _); [discriminate|].
    unfold bind. rewrite Hpw. reflexivity.
  - destruct (contains "key" (SecretString v)); [|reflexivity].
    destruct (token_bytes_run 32 (logged (GetSecretValue SecretId None) w)) as (bs & Hbs & _).
    unfold token_urlsafe, bind. rewrite Hbs. reflexivity.
Qed.

(** In no case does [createSecret] change the store. *)
Lemma create_secret_never_writes secret_arn w :
  secrets (create_secret secret_arn w).2 = secrets w.
Proof.
  rewrite create_secret_run. cbv zeta.
  destruct (value_at _ _ _) as [value|]; [destruct (classify value)|]; reflexivity.
Qed.

Lemma test_secret_run SecretId w :
  test_secret SecretId w =
  (match value_at AWSPENDING SecretId w with
   | None => Raise (ClientError "ResourceNotFoundException")
   | Some value =>
       match value !! "password" with
       | Some password =>
           if (len password <? 8)%nat then Raise (ValueError "Password too short") else Ok tt
       | None =>
           match value !! "key" with
           | Some key => if (len key <? 16)%nat then Raise (ValueError "Key too short") else Ok tt
           | None => Ok tt
           end
       end
   end, logged (GetSecretValue SecretId (Some AWSPENDING)) w).
Proof.
  unfold test_secret, value_at. unfold try_except, bind at 1.
  rewrite get_secret_value_run. simpl default.
  destruct (version_at AWSPENDING SecretId w) as [[vid v]|]; simpl; [|reflexivity].
  destruct (SecretString v !! "password") as [p|].
  - destruct (len p <? 8)%nat; reflexivity.
  - destruct (SecretString v !! "key") as [k|]; [|reflexivity].
    destruct (len k <? 16)%nat; reflexivity.
Qed.

(** [finishSecret]: the version id it promotes is whatever the response of
    [describe_secret] holds under the key "AWSPENDING" of a map keyed by
    version ids. *)
Lemma finish_secret_run SecretId w :
  finish_secret SecretId w =
  let w1 := logged (DescribeSecret SecretId) w in
  match secrets w !! SecretId with
  | None => (Raise (ClientError "ResourceNotFoundException"), w1)
  | Some s =>
      match s !! "AWSPENDING" with
      | None =>
          (Raise (ClientError "ParamValidationError"),
           logged (UpdateSecretVersionStage SecretId AWSCURRENT None) w1)
      | Some named =>
          match VersionStages named with
          | [] => (Raise (IndexError "list index out of range"), w1)
          | label :: _ =>
              let w2 := logged (UpdateSecretVersionStage SecretId AWSCURRENT (Some label)) w1 in
              match s !! label with
              | None => (Raise (ClientError "ResourceNotFoundException"), w2)
              | Some v =>
                  (Ok tt, set_secrets (<[SecretId := moved AWSCURRENT label v s]> (secrets w)) w2)
              end
          end
      end
  end.
Proof.
  unfold finish_secret. unfold try_except, bind at 1.
  rewrite describe_secret_run.
  destruct (secrets w !! SecretId) as [s|] eqn:Hs; simpl; [|reflexivity].
  rewrite lookup_fmap.
  destruct (s !! "AWSPENDING") as [named|]; simpl.
  - destruct (VersionStages named) as [|label rest]; simpl; [reflexivity|].
    unfold update_secret_version_stage. py_unfold. simpl. rewrite Hs.
    destruct (s !! label); reflexivity.
  - unfold update_secret_version_stage. py_unfold. simpl. rewrite Hs. reflexivity.
Qed.

(** *** The handler *)

(** The handler never raises: it answers 200 when the routed step returns and
    500 with the error text when anything raises; the world is the one the
    step left. *)
Lemma handler_run ev w :
  handler ev w =
  match SecretId ev with
  | None | Some "" => (Ok (failure (ValueError "SecretId not provided in event") ev), w)
  | Some secret_arn =>
      let step := default "createSecret" (Step ev) in
      match route step secret_arn w with
      | (Ok _, w') => (Ok (success step secret_arn), w')
      | (Raise e, w') => (Ok (failure e ev), w')
      end
  end.
Proof.
  unfold handler, try_except, failure, success.
  destruct (SecretId ev) as [[|a arn]|]; simpl; try reflexivity.
  unfold bind. destruct (route _ _ w) as [[[]|e] w']; reflexivity.
Qed.

Lemma route_unknown step secret_arn :
  step ∉ ["createSecret"; "setSecret"; "testSecret"; "finishSecret"] ->
  route step secret_arn = raise (ValueError ("Unknown step: " +:+ step)).
Proof.
  intros Hstep. unfold route.
  repeat (case_bool_decide; [exfalso; apply Hstep; subst step; set_solver|]).
  reflexivity.
Qed.

(** *** Manual-rotation secrets *)

(** C6. For every secret whose CURRENT value contains an [api_key] field,
    whatever other fields it has, [createSecret] returns success, reads
    nothing from the random source (no generation), and leaves the store as
    it was (no new PENDING version): its only request is the read of the
    CURRENT value. *)
Theorem create_secret_api_key_is_manual SecretId w value :
  value_at AWSCURRENT SecretId w = Some value ->
  contains "api_key" value = true ->
  let out := create_secret SecretId w in
  out.1 = Ok tt /\
  secrets out.2 = secrets w /\
  cursor out.2 = cursor w /\
  api_calls out.2 = (api_calls w ++ [GetSecretValue SecretId None])%list /\
  version_at AWSPENDING SecretId out.2 = version_at AWSPENDING SecretId w.
Proof.
  intros Hcur Hkey. cbv zeta. rewrite create_secret_run. cbv zeta. rewrite Hcur.
  unfold classify. rewrite Hkey. repeat split.
Qed.

Lemma create_secret_api_key_is_manual_witness :
  let out := create_secret Scenario.arn Scenario.manual in
  out.1 = Ok tt /\
  secrets out.2 = secrets Scenario.manual /\
  cursor out.2 = cursor Scenario.manual /\
  api_calls out.2 = (api_calls Scenario.manual ++ [GetSecretValue Scenario.arn None])%list /\
  version_at AWSPENDING Scenario.arn out.2 = version_at AWSPENDING Scenario.arn Scenario.manual.
Proof.
  apply (create_secret_api_key_is_manual Scenario.arn Scenario.manual
           {["api_key" := "sk-live-0123456789abcdef"; "password" := "old-password"]}).
  - vm_compute. reflexivity.
  - vm_compute. reflexivity.
Defined.

(** *** Validation is read-only *)

(** C7. [testSecret] never modifies the Secret Store: whether validation
    succeeds or raises, every secret, version, value and stage label is the
    same after the call, and so is what the handler leaves behind; the only
    request is the read of the PENDING value. *)
Theorem test_secret_leaves_store_unchanged secret_arn w :
  secrets (test_secret secret_arn w).2 = secrets w /\
  api_calls (test_secret secret_arn w).2 =
    (api_calls w ++ [GetSecretValue secret_arn (Some AWSPENDING)])%list /\
  (forall stage, version_at stage secret_arn (test_secret secret_arn w).2 =
                 version_at stage secret_arn w) /\
  secrets (handler (mkEvent (Some secret_arn) (Some "testSecret")) w).2 = secrets w.
Proof.
  rewrite test_secret_run. repeat split.
  rewrite handler_run. simpl SecretId. destruct secret_arn as [|a arn]; [reflexivity|].
  cbv zeta. simpl default. unfold route. simpl.
  rewrite test_secret_run.
  repeat match goal with |- context [match ?x with _ => _ end] => destruct x end; reflexivity.
Qed.

(** The second end-to-end scenario: a five-character key seeded as PENDING
    makes [testSecret] raise, and the CURRENT value is the one it was. *)
Example short_key_is_rejected :
  (test_secret Scenario.arn Scenario.short_key).1 = Raise (ValueError "Key too short") /\
  value_at AWSCURRENT Scenario.arn (test_secret Scenario.arn Scenario.short_key).2 =
    Some {["key" := "0123456789abcdef0123456789abcdef"]}.
Proof. split; vm_compute; reflexivity. Qed.

(** *** Rejected events *)

(** C8. An event without a SecretId (absent or empty) and an event whose Step
    is none of the four step names are both answered with the error
    response, and the world is left exactly as it was: no request reaches
    the Secret Store. *)
Theorem handler_rejects_before_store_access ev w :
  (SecretId ev = None \/ SecretId ev = Some "" ->
   handler ev w = (Ok (mkResponse 500 [("error", "SecretId not provided in event");
                                      ("secretArn", default "unknown" (SecretId ev))]), w)) /\
  (forall secret_arn step,
     SecretId ev = Some secret_arn -> secret_arn <> "" -> Step ev = Some step ->
     step ∉ ["createSecret"; "setSecret"; "testSecret"; "finishSecret"] ->
     handler ev w = (Ok (mkResponse 500 [("error", "Unknown step: " +:+ step);
                                        ("secretArn", secret_arn)]), w)).
Proof.
  split.
  - intros [H|H]; rewrite handler_run; unfold failure; rewrite H; reflexivity.
  - intros secret_arn step Hid Hne Hstep Hunknown.
    rewrite handler_run, Hid, Hstep. destruct secret_arn as [|a arn]; [congruence|].
    cbv zeta. simpl default. rewrite (route_unknown _ _ Hunknown).
    unfold raise, failure. rewrite Hid. reflexivity.
Qed.

Lemma handler_rejects_before_store_access_witness :
  handler (mkEvent None (Some "createSecret")) Scenario.mid_cycle =
    (Ok (mkResponse 500 [("error", "SecretId not provided in event"); ("secretArn", "unknown")]),
     Scenario.mid_cycle) /\
  handler (mkEvent (Some Scenario.arn) (Some "rotateSecret")) Scenario.mid_cycle =
    (Ok (mkResponse 500 [("error", "Unknown step: rotateSecret"); ("secretArn", Scenario.arn)]),
     Scenario.mid_cycle).
Proof.
  split.
  - apply (proj1 (handler_rejects_before_store_access
                    (mkEvent None (Some "createSecret")) Scenario.mid_cycle)).
    left. reflexivity.
  - apply (proj2 (handler_rejects_before_store_access
                    (mkEvent (Some Scenario.arn) (Some "rotateSecret")) Scenario.mid_cycle)
             Scenario.arn "rotateSecret").
    + reflexivity.
    + discriminate.
    + reflexivity.
    + apply (bool_decide_unpack _). vm_compute. reflexivity.
Defined.

(** *** The default step *)

(** C10. An event with a SecretId and no Step field is not rejected as an
    unknown step: the handler routes it to [createSecret], with the same
    answer and the same final world as the event that names [createSecret]. *)
Theorem handler_defaults_to_create_secret secret_arn w :
  handler (mkEvent (Some secret_arn) None) w =
    handler (mkEvent (Some secret_arn) (Some "createSecret")) w /\
  route (default "createSecret" (Step (mkEvent (Some secret_arn) None))) secret_arn =
    create_secret secret_arn /\
  (secret_arn <> "" ->
   (handler (mkEvent (Some secret_arn) None) w).2 = (create_secret secret_arn w).2 /\
   ((create_secret secret_arn w).1 = Ok tt ->
    (handler (mkEvent (Some secret_arn) None) w).1 = Ok (success "createSecret" secret_arn))).
Proof.
  split; [|split].
  - rewrite !handler_run. reflexivity.
  - reflexivity.
  - intros Hne. rewrite handler_run. simpl SecretId. simpl Step.
    destruct secret_arn as [|a arn]; [congruence|].
    cbv zeta. simpl default. change (route "createSecret" (String a arn)) with (create_secret (String a arn)).
    destruct (create_secret (String a arn) w) as [[[]|e] w']; simpl; split; congruence.
Qed.

Lemma handler_defaults_to_create_secret_witness :
  (handler (mkEvent (Some Scenario.arn) None) Scenario.manual).2 =
    (create_secret Scenario.arn Scenario.manual).2 /\
  (handler (mkEvent (Some Scenario.arn) None) Scenario.manual).1 =
    Ok (success "createSecret" Scenario.arn).
Proof.
  destruct (handler_defaults_to_create_secret Scenario.arn Scenario.manual) as (_ & _ & H).
  destruct H as [Hw Hr]; [discriminate|].
  split; [exact Hw | apply Hr; vm_compute; reflexivity].
Defined.

(** *** Validation *)

(** At the manually seeded secret whose PENDING value holds an [api_key] and a
    five-character [password], the validation rule keyed to the
    classification api_key > password > key accepts the value, and
    [testSecret] raises. *)
Lemma test_secret_not_keyed_to_classification :
  ~ (forall value, value_at AWSPENDING Scenario.arn Scenario.manual = Some value ->
       (raises (test_secret Scenario.arn Scenario.manual).1 <-> policy_rejects value = true)).
Proof.
  intros H.
  specialize (H {["api_key" := "sk-live-fedcba9876543210"; "password" := "short"]}).
  assert (Hv : value_at AWSPENDING Scenario.arn Scenario.manual =
               Some {["api_key" := "sk-live-fedcba9876543210"; "password" := "short"]})
    by (vm_compute; reflexivity).
  destruct (H Hv) as [Hraise _].
  assert (Hr : raises (test_secret Scenario.arn Scenario.manual).1) by (vm_compute; exact I).
  specialize (Hraise Hr). vm_compute in Hraise. discriminate.
Qed.

(** C5 (amended). For every secret with a PENDING version, [testSecret] raises
    if and only if the PENDING value has a [password] field shorter than 8
    characters, or has no [password] field and a [key] field shorter than 16
    characters; an [api_key] field plays no part.  What it raises is a
    [ValueError]. *)
Theorem test_secret_fails_iff_field_too_short secret_arn w value :
  value_at AWSPENDING secret_arn w = Some value ->
  (raises (test_secret secret_arn w).1 <->
     (exists password, value !! "password" = Some password /\ (len password < 8)%nat) \/
     (value !! "password" = None /\
      exists key, value !! "key" = Some key /\ (len key < 16)%nat)) /\
  (forall e, (test_secret secret_arn w).1 = Raise e -> exists msg, e = ValueError msg).
Proof.
  intros Hv. rewrite test_secret_run, Hv. simpl.
  destruct (value !! "password") as [p|] eqn:Hp.
  - destruct (Nat.ltb_spec (len p) 8); simpl; split.
    + split; [intros _; left; eauto | intros _; exact I].
    + intros e [= <-]. eauto.
    + split; [intros [] | intros [(p' & [= <-] & Hlt)|[[=] _]]; lia].
    + intros e [=].
  - destruct (value !! "key") as [k|] eqn:Hk.
    + destruct (Nat.ltb_spec (len k) 16); simpl; split.
      * split; [intros _; right; eauto | intros _; exact I].
      * intros e [= <-]. eauto.
      * split; [intros [] | intros [(p' & [=] & _)|[_ (k' & [= <-] & Hlt)]]; lia].
      * intros e [=].
    + simpl. split.
      * split; [intros [] | intros [(p' & [=] & _)|[_ (k' & [=] & _)]]].
      * intros e [=].
Qed.

Lemma test_secret_fails_iff_field_too_short_witness :
  raises (test_secret Scenario.arn Scenario.short_key).1 <->
    (exists password, ({["key" := "short"]} : gmap string string) !! "password" = Some password /\
                      (len password < 8)%nat) \/
    (({["key" := "short"]} : gmap string string) !! "password" = None /\
     exists key, ({["key" := "short"]} : gmap string string) !! "key" = Some key /\
                 (len key < 16)%nat).
Proof.
  apply (test_secret_fails_iff_field_too_short Scenario.arn Scenario.short_key {["key" := "short"]}).
  vm_compute. reflexivity.
Defined.

(** *** The stage-label invariant *)

Lemma at_most_one_spec stage (s : secret) :
  at_most_one stage s <->
  (forall i j vi vj, s !! i = Some vi -> s !! j = Some vj ->
     stage ∈ VersionStages vi -> stage ∈ VersionStages vj -> i = j).
Proof.
  unfold at_most_one, map_Forall. split.
  - intros H i j vi vj Hi Hj Hvi Hvj. exact (H i vi Hi Hvi j vj Hj Hvj).
  - intros H i vi Hi Hvi j vj Hj Hvj. exact (H i j vi vj Hi Hj Hvi Hvj).
Qed.

Lemma stages_remove_stage stage l v :
  l ∈ VersionStages (remove_stage stage v) <-> l ∈ VersionStages v /\ l <> stage.
Proof. unfold remove_stage. simpl. rewrite list_elem_of_filter. tauto. Qed.

Lemma stages_add_stage stage l v :
  l ∈ VersionStages (add_stage stage v) <-> l ∈ VersionStages v \/ l = stage.
Proof.
  unfold add_stage, holds. case_bool_decide as Hin; simpl.
  - split; [tauto | intros [H| ->]; assumption].
  - rewrite elem_of_app, list_elem_of_singleton. tauto.
Qed.

(** What a version of the relabelled secret was before the move. *)
Lemma moved_lookup stage vid v (s : secret) i vi :
  s !! vid = Some v ->
  moved stage vid v s !! i = Some vi ->
  exists x, s !! i = Some x /\
            (forall l, l <> stage -> l ∈ VersionStages vi <-> l ∈ VersionStages x) /\
            (stage ∈ VersionStages vi -> i = vid).
Proof.
  intros Hvid. unfold moved. destruct (decide (vid = i)) as [->|Hne].
  - rewrite lookup_insert_eq. intros [= <-]. exists v. split; [assumption|]. split.
    + intros l Hl. rewrite stages_add_stage. tauto.
    + reflexivity.
  - rewrite lookup_insert_ne, lookup_fmap by assumption.
    destruct (s !! i) as [x|]; simpl; [|discriminate].
    intros [= <-]. exists x. split; [reflexivity|]. split.
    + intros l Hl. rewrite stages_remove_stage. tauto.
    + rewrite stages_remove_stage. tauto.
Qed.

Lemma at_most_one_moved stage vid v (s : secret) :
  s !! vid = Some v -> at_most_one stage (moved stage vid v s).
Proof.
  intros Hvid. apply at_most_one_spec. intros i j vi vj Hi Hj Hvi Hvj.
  destruct (moved_lookup _ _ _ _ _ _ Hvid Hi) as (_ & _ & _ & Ei).
  destruct (moved_lookup _ _ _ _ _ _ Hvid Hj) as (_ & _ & _ & Ej).
  rewrite (Ei Hvi), (Ej Hvj). reflexivity.
Qed.

Lemma at_most_one_moved_other stage other vid v (s : secret) :
  other <> stage -> s !! vid = Some v ->
  at_most_one other s -> at_most_one other (moved stage vid v s).
Proof.
  intros Hne Hvid Hs. apply at_most_one_spec. intros i j vi vj Hi Hj Hvi Hvj.
  destruct (moved_lookup _ _ _ _ _ _ Hvid Hi) as (xi & Hxi & Ei & _).
  destruct (moved_lookup _ _ _ _ _ _ Hvid Hj) as (xj & Hxj & Ej & _).
  apply (proj1 (at_most_one_spec other s) Hs i j xi xj Hxi Hxj).
  - apply Ei; assumption.
  - apply Ej; assumption.
Qed.

(** The secrets after any one invocation: untouched, or one secret in which
    the CURRENT label moved to one of its versions. *)
Lemma handler_secrets ev w :
  secrets (handler ev w).2 = secrets w \/
  exists secret_arn s vid v,
    secrets w !! secret_arn = Some s /\ s !! vid = Some v /\
    secrets (handler ev w).2 = <[secret_arn := moved AWSCURRENT vid v s]> (secrets w).
Proof.
  rewrite handler_run. destruct (SecretId ev) as [[|a arn]|]; try (left; reflexivity).
  cbv zeta. unfold route.
  repeat case_bool_decide.
  - rewrite create_secret_run. cbv zeta. left.
    destruct (value_at _ _ _) as [value|]; [destruct (classify value)|]; reflexivity.
  - left. reflexivity.
  - rewrite test_secret_run. left.
    repeat match goal with |- context [match ?x with _ => _ end] => destruct x end; reflexivity.
  - rewrite finish_secret_run. cbv zeta.
    destruct (secrets w !! String a arn) as [s|] eqn:Hs; [|left; reflexivity].
    destruct (s !! "AWSPENDING") as [named|]; [|left; reflexivity].
    destruct (VersionStages named) as [|label rest]; [left; reflexivity|].
    destruct (s !! label) as [v|] eqn:Hv; [|left; reflexivity].
    right. exists (String a arn), s, label, v. repeat split; assumption.
  - left. reflexivity.
Qed.

Lemma handler_preserves_stage_invariant ev w :
  stage_invariant w -> stage_invariant (handler ev w).2.
Proof.
  unfold stage_invariant. intros Hinv.
  destruct (handler_secrets ev w) as [-> | (arn & s & vid & v & Hs & Hv & ->)]; [assumption|].
  apply map_Forall_insert_2; [|assumption].
  destruct (Hinv arn s Hs) as [_ Hpending]. split.
  - apply at_most_one_moved. assumption.
  - apply at_most_one_moved_other; [discriminate | assumption | assumption].
Qed.

(** C4. From a store in which every secret has at most one CURRENT and at most
    one PENDING version, any sequence of handler invocations, whatever their
    steps and secret identifiers, leads to a store with the same property. *)
Theorem stage_invariant_preserved evs w :
  stage_invariant w -> stage_invariant (invoke_all evs w).
Proof.
  revert w. induction evs as [|ev evs IH]; intros w Hinv; simpl.
  - assumption.
  - apply IH. apply handler_preserves_stage_invariant. assumption.
Qed.

Lemma stage_invariant_preserved_witness :
  stage_invariant Scenario.mid_cycle /\
  stage_invariant (invoke_all Scenario.cycle Scenario.mid_cycle).
Proof.
  assert (H : stage_invariant Scenario.mid_cycle)
    by (apply (bool_decide_unpack _); vm_compute; reflexivity).
  split; [exact H | exact (stage_invariant_preserved Scenario.cycle Scenario.mid_cycle H)].
Defined.

(** *** Promotion *)

(** With the version ids the store assigns, none of which is the word
    "AWSPENDING", [finishSecret] finds no version to promote: the update is
    requested without a version id, the store refuses it, and the step raises
    with every label where it was. *)
Lemma finish_secret_finds_no_pending secret_arn w s :
  secrets w !! secret_arn = Some s ->
  s !! "AWSPENDING" = None ->
  (finish_secret secret_arn w).1 = Raise (ClientError "ParamValidationError") /\
  secrets (finish_secret secret_arn w).2 = secrets w /\
  api_calls (finish_secret secret_arn w).2 =
    (api_calls w ++ [DescribeSecret secret_arn;
                     UpdateSecretVersionStage secret_arn AWSCURRENT None])%list.
Proof.
  intros Hs Hnone. rewrite finish_secret_run. cbv zeta. rewrite Hs, Hnone. simpl.
  rewrite <- app_assoc. repeat split.
Qed.

(** Whatever [finishSecret] does, a version that held PENDING holds it
    afterwards: no request of the step takes that label off. *)
Lemma finish_secret_keeps_pending secret_arn w s i v :
  secrets w !! secret_arn = Some s ->
  s !! i = Some v -> AWSPENDING ∈ VersionStages v ->
  exists s' v', secrets (finish_secret secret_arn w).2 !! secret_arn = Some s' /\
                s' !! i = Some v' /\ AWSPENDING ∈ VersionStages v'.
Proof.
  intros Hs Hi Hp. rewrite finish_secret_run. cbv zeta. rewrite Hs.
  destruct (s !! "AWSPENDING") as [named|]; [|exists s, v; auto].
  destruct (VersionStages named) as [|label rest]; [exists s, v; auto|].
  destruct (s !! label) as [x|] eqn:Hx; [|exists s, v; auto].
  simpl. rewrite lookup_insert_eq. unfold moved.
  destruct (decide (label = i)) as [->|Hne].
  - exists (<[i := add_stage AWSCURRENT x]> (remove_stage AWSCURRENT <$> s)), (add_stage AWSCURRENT x).
    rewrite lookup_insert_eq. repeat split.
    rewrite stages_add_stage. left. congruence.
  - exists (<[label := add_stage AWSCURRENT x]> (remove_stage AWSCURRENT <$> s)),
           (remove_stage AWSCURRENT v).
    rewrite lookup_insert_ne, lookup_fmap, Hi by assumption. repeat split.
    rewrite stages_remove_stage. split; [assumption | discriminate].
Qed.

(** C1. Mid-cycle, with version v1 CURRENT and version v2 PENDING,
    [finishSecret] does not complete: it raises, the handler answers 500,
    and afterwards v1 is still CURRENT, v2 is still PENDING and nothing is
    PREVIOUS; the state the specification calls promoted is not reached. *)
Theorem finish_secret_promotes_nothing :
  let out := finish_secret Scenario.arn Scenario.mid_cycle in
  out.1 = Raise (ClientError "ParamValidationError") /\
  secrets out.2 = secrets Scenario.mid_cycle /\
  api_calls out.2 = [DescribeSecret Scenario.arn;
                     UpdateSecretVersionStage Scenario.arn AWSCURRENT None] /\
  value_at AWSCURRENT Scenario.arn out.2 = Some {["password" := "old"]} /\
  value_at AWSPENDING Scenario.arn out.2 = Some {["password" := "Xk3!Xk3!Xk3!Xk3!Xk3!Xk3!Xk3!Xk3!"]} /\
  value_at AWSPREVIOUS Scenario.arn out.2 = None /\
  ~ promoted Scenario.arn Scenario.mid_cycle out.2 /\
  (handler (mkEvent (Some Scenario.arn) (Some "finishSecret")) Scenario.mid_cycle).1 =
    Ok (mkResponse 500 [("error", "ParamValidationError"); ("secretArn", Scenario.arn)]).
Proof.
  cbv zeta. repeat split; try (vm_compute; reflexivity).
  intros (_ & Hcur & _). vm_compute in Hcur. discriminate.
Qed.

(** *** Creation *)

(** What generation produces for a password: 32 characters, each a letter, a
    digit or one of the eight punctuation marks, for 32 values read from the
    random source. *)
Lemma generated_password_shape w :
  exists password,
    join_choices password_alphabet 32 w = (Ok password, drawn 32 w) /\
    len password = 32%nat /\
    Forall (fun c => In c (list_ascii_of_string password_alphabet))
           (list_ascii_of_string password).
Proof. apply (join_choices_run password_alphabet 32 w). discriminate. Qed.

(** C3. For the secret whose CURRENT value is a password and a user name,
    [createSecret] does not succeed: once the new password is generated the
    step raises NameError for [datetime], before anything is written; the
    handler answers 500 and the secret has no PENDING version. *)
Theorem create_secret_password_raises_name_error :
  let out := create_secret Scenario.arn Scenario.fresh in
  out.1 = Raise (NameError "datetime") /\
  secrets out.2 = secrets Scenario.fresh /\
  cursor out.2 = 32%N /\
  api_calls out.2 = [GetSecretValue Scenario.arn None] /\
  version_at AWSPENDING Scenario.arn out.2 = None /\
  (handler (mkEvent (Some Scenario.arn) (Some "createSecret")) Scenario.fresh).1 =
    Ok (mkResponse 500 [("error", "name 'datetime' is not defined");
                        ("secretArn", Scenario.arn)]).
Proof. cbv zeta. repeat split; vm_compute; reflexivity. Qed.

(** Mid-cycle, with a PENDING version already staged, [createSecret] is not
    the no-op of the idempotence requirement: it reads 32 more values from the
    random source. *)
Lemma create_secret_regenerates_mid_cycle :
  ~ create_is_noop_on_pending Scenario.arn Scenario.mid_cycle.
Proof.
  unfold create_is_noop_on_pending. intros (_ & Hcursor & _).
  vm_compute in Hcursor. discriminate.
Qed.

(** C2 (amended). [createSecret] never looks for a PENDING version: what it
    returns and how much it generates are decided by the CURRENT value alone.
    When that value is api_key-bearing or of unknown shape, the step returns
    success, generates nothing and leaves the store as it was, so a PENDING
    version that existed stays as it is; when it is password- or
    key-bearing, each invocation reads 32 new values from the random source,
    whether or not a PENDING version exists. *)
Theorem create_secret_ignores_pending secret_arn w value :
  value_at AWSCURRENT secret_arn w = Some value ->
  let out := create_secret secret_arn w in
  (classify value = ManualApiKey \/ classify value = UnknownShape ->
   out.1 = Ok tt /\ secrets out.2 = secrets w /\ cursor out.2 = cursor w) /\
  (classify value = PasswordBearing \/ classify value = KeyBearing ->
   cursor out.2 = (cursor w + 32)%N) /\
  (forall w', value_at AWSCURRENT secret_arn w' = Some value ->
     (create_secret secret_arn w').1 = out.1 /\
     (cursor (create_secret secret_arn w').2 + cursor w = cursor out.2 + cursor w')%N).
Proof.
  intros Hcur. cbv zeta. rewrite create_secret_run. cbv zeta. rewrite Hcur.
  split; [|split].
  - intros [-> | ->]; repeat split.
  - intros [-> | ->]; reflexivity.
  - intros w' Hcur'. rewrite create_secret_run. cbv zeta. rewrite Hcur'.
    destruct (classify value); simpl; split; try reflexivity; lia.
Qed.

Lemma create_secret_ignores_pending_witness :
  cursor (create_secret Scenario.arn Scenario.mid_cycle).2 = (cursor Scenario.mid_cycle + 32)%N.
Proof.
  apply (create_secret_ignores_pending Scenario.arn Scenario.mid_cycle {["password" := "old"]}).
  - vm_compute. reflexivity.
  - left. vm_compute. reflexivity.
Defined.

End RotationProperties.

(** ** Properties of the identity triggers *)
Module CognitoProperties.
Import Cognito.

(** *** Reasoning about a block that may raise half-way *)

Section Blocks.
Context {W : Type}.

Lemma reads_unchanged {A} (m : M W A) : reads m -> unchanged_on_raise m.
Proof. intros Hm w e w' H. specialize (Hm w). rewrite H in Hm. exact Hm. Qed.

Lemma reads_ret {A} (a : A) : reads (ret a : M W A).
Proof. intros w. reflexivity. Qed.

Lemma reads_raise {A} (e : exn) : reads (raise e : M W A).
Proof. intros w. reflexivity. Qed.

Lemma reads_bind {A B} (m : M W A) (k : A -> M W B) :
  reads m -> (forall a, reads (k a)) -> reads (bind m k).
Proof.
  intros Hm Hk w. unfold bind. specialize (Hm w).
  destruct (m w) as [[a|e] w1]; simpl in *; subst w1; [apply Hk | reflexivity].
Qed.

Lemma reads_try_except {A} (m : M W A) (h : exn -> M W A) :
  reads m -> (forall e, reads (h e)) -> reads (try_except m h).
Proof.
  intros Hm Hh w. unfold try_except. specialize (Hm w).
  destruct (m w) as [[a|e] w1]; simpl in *; subst w1; [reflexivity | apply Hh].
Qed.

Lemma unchanged_bind_reads {A B} (m : M W A) (k : A -> M W B) :
  reads m -> (forall a, unchanged_on_raise (k a)) -> unchanged_on_raise (bind m k).
Proof.
  intros Hm Hk w e w'. unfold bind. specialize (Hm w).
  destruct (m w) as [[a|e1] w1]; simpl in *; subst w1.
  - apply Hk.
  - intros [= _ <-]. reflexivity.
Qed.

Lemma unchanged_bind_total {A B} (m : M W A) (k : A -> M W B) :
  unchanged_on_raise m -> (forall a, never_raises (k a)) -> unchanged_on_raise (bind m k).
Proof.
  intros Hm Hk w e w'. unfold bind.
  destruct (m w) as [[a|e1] w1] eqn:Hmw.
  - destruct (Hk a w1) as (b & w2 & ->). discriminate.
  - intros [= _ <-]. eapply Hm. exact Hmw.
Qed.

Lemma reads_get obj key dflt : reads (get obj key dflt : M W json).
Proof. intros w. destruct obj; reflexivity. Qed.

Lemma reads_getitem obj key : reads (getitem obj key : M W json).
Proof. intros w. destruct obj; try reflexivity. simpl. destruct (dict_get key d); reflexivity. Qed.

Lemma reads_lower obj : reads (lower obj : M W string).
Proof. intros w. destruct obj; reflexivity. Qed.

Lemma reads_json_loads_or parse s fallback : reads (json_loads_or parse s fallback : M W json).
Proof.
  intros w. unfold json_loads_or, json_loads, try_except.
  destruct s; try reflexivity. destruct (parse s); reflexivity.
Qed.

End Blocks.

Create HintDb reads.
#[local] Hint Resolve reads_ret reads_raise reads_get reads_getitem reads_lower
  reads_json_loads_or : reads.

Lemma dict_get_set key v d : dict_get key (dict_set key v d) = Some v.
Proof.
  induction d as [|[k x] d IH]; simpl.
  - rewrite String.eqb_refl. reflexivity.
  - destruct (String.eqb k key) eqn:E; simpl; rewrite E; [reflexivity | exact IH].
Qed.

Lemma reads_the_event : reads the_event.
Proof. intros w. reflexivity. Qed.

Lemma set_in_run outer field v event :
  set_in outer field v event =
  match dict_get outer event with
  | None => (Raise (KeyError outer), event)
  | Some (JDict d) => (Ok tt, dict_set outer (JDict (dict_set field v d)) event)
  | Some (JList _) =>
      (Raise (TypeError "list indices must be integers or slices, not str"), event)
  | Some _ => (Raise (TypeError "object does not support item assignment"), event)
  end.
Proof.
  unfold set_in, the_event, bind, getitem, setitem, ret, raise.
  destruct (dict_get outer event) as [[]|]; reflexivity.
Qed.

(** Two writes to the same sub-object: if the first goes through so does the
    second, and if the first raises nothing was written. *)
Lemma set_in_twice_unchanged outer f1 v1 f2 v2 :
  unchanged_on_raise (bind (set_in outer f1 v1) (fun _ => set_in outer f2 v2)).
Proof.
  intros event e event'. unfold bind. rewrite set_in_run.
  destruct (dict_get outer event) as [[]|]; try (intros [= _ <-]; reflexivity).
  rewrite set_in_run, dict_get_set. discriminate.
Qed.

Lemma bind_ok_inv {W A B} (m : M W A) (k : A -> M W B) w b w' :
  bind m k w = (Ok b, w') -> exists a w1, m w = (Ok a, w1) /\ k a w1 = (Ok b, w').
Proof.
  unfold bind. destruct (m w) as [[a|e] w1]; [|discriminate].
  intros H. exists a, w1. split; [reflexivity | exact H].
Qed.

Ltac bind_inv H :=
  let a := fresh "a" in let w1 := fresh "w" in let Hm := fresh "Hm" in
  apply bind_ok_inv in H; destruct H as (a & w1 & Hm & H).

(** *** custom_message.py *)
Section CustomMessage.
Import CustomMessage.
Variables signup_message resend_code_message forgot_password_message
  : json -> json -> string.
Variables update_attribute_message verify_attribute_message authentication_message
  : json -> string.

Lemma reads_code_parameter_of_event : reads code_parameter_of_event.
Proof.
  unfold code_parameter_of_event.
  repeat (apply reads_bind; [auto using reads_the_event with reads | intros ?]).
  auto with reads.
Qed.

Ltac customizer :=
  repeat (apply unchanged_bind_reads;
          [solve [auto using reads_code_parameter_of_event with reads] | intros ?]);
  apply set_in_twice_unchanged.

Lemma customize_signup_message_unchanged ua :
  unchanged_on_raise (customize_signup_message signup_message ua).
Proof. unfold customize_signup_message, set_response. customizer. Qed.

Lemma customize_resend_code_message_unchanged ua :
  unchanged_on_raise (customize_resend_code_message resend_code_message ua).
Proof. unfold customize_resend_code_message, set_response. customizer. Qed.

Lemma customize_forgot_password_message_unchanged ua :
  unchanged_on_raise (customize_forgot_password_message forgot_password_message ua).
Proof. unfold customize_forgot_password_message, set_response. customizer. Qed.

Lemma customize_update_attribute_message_unchanged ua :
  unchanged_on_raise (customize_update_attribute_message update_attribute_message ua).
Proof. unfold customize_update_attribute_message, set_response. customizer. Qed.

Lemma customize_verify_attribute_message_unchanged ua :
  unchanged_on_raise (customize_verify_attribute_message verify_attribute_message ua).
Proof. unfold customize_verify_attribute_message, set_response. customizer. Qed.

Lemma customize_authentication_message_unchanged ua :
  unchanged_on_raise (customize_authentication_message authentication_message ua).
Proof. unfold customize_authentication_message, set_response. customizer. Qed.

Abbreviation custom_message_try :=
  (handler_try signup_message resend_code_message forgot_password_message
     update_attribute_message verify_attribute_message authentication_message).

Abbreviation custom_message_handler :=
  (handler signup_message resend_code_message forgot_password_message
     update_attribute_message verify_attribute_message authentication_message).

(** A customizer that raises does so before its first write to the event. *)
Lemma custom_message_try_unchanged : unchanged_on_raise custom_message_try.
Proof.
  unfold handler_try.
  repeat (apply unchanged_bind_reads; [solve [auto using reads_the_event with reads] | intros ?]).
  apply unchanged_bind_total.
  - repeat match goal with |- unchanged_on_raise (if ?c then _ else _) => destruct c end;
      auto using customize_signup_message_unchanged, customize_resend_code_message_unchanged,
        customize_forgot_password_message_unchanged, customize_update_attribute_message_unchanged,
        customize_verify_attribute_message_unchanged, customize_authentication_message_unchanged.
    apply reads_unchanged, reads_ret.
  - intros _ w. exists (JDict w), w. reflexivity.
Qed.

Lemma custom_message_try_returns_event event v event' :
  custom_message_try event = (Ok v, event') -> v = JDict event'.
Proof.
  unfold handler_try. intros H. repeat bind_inv H.
  unfold the_event in H. congruence.
Qed.

Lemma custom_message_handler_run event :
  exists event', custom_message_handler event = (Ok (JDict event'), event') /\
    (raises (custom_message_try event).1 -> event' = event).
Proof.
  unfold handler, try_except.
  destruct (custom_message_try event) as [[v|e] event'] eqn:Htry.
  - exists event'. rewrite (custom_message_try_returns_event _ _ _ Htry).
    split; [reflexivity | intros []].
  - rewrite (custom_message_try_unchanged _ _ _ Htry).
    exists event. split; [reflexivity | reflexivity].
Qed.

End CustomMessage.

(** *** post_confirmation.py and post_authentication.py *)

Lemma keeps_event_bind {A B} (m : M aws A) (k : A -> M aws B) :
  keeps_event m -> (forall a, keeps_event (k a)) -> keeps_event (bind m k).
Proof.
  intros Hm Hk w. unfold bind. specialize (Hm w).
  destruct (m w) as [[a|e] w1]; simpl in *; [rewrite Hk|]; exact Hm.
Qed.

Lemma keeps_event_try_except {A} (m : M aws A) (h : exn -> M aws A) :
  keeps_event m -> (forall e, keeps_event (h e)) -> keeps_event (try_except m h).
Proof.
  intros Hm Hh w. unfold try_except. specialize (Hm w).
  destruct (m w) as [[a|e] w1]; simpl in *; [|rewrite Hh]; exact Hm.
Qed.

Lemma keeps_event_reads {A} (m : M aws A) : reads m -> keeps_event m.
Proof. intros Hm w. rewrite Hm. reflexivity. Qed.

Lemma keeps_event_send r : keeps_event (send r).
Proof. intros w. unfold send. destruct (refused w _); reflexivity. Qed.

Lemma reads_ask {A} (f : aws -> A) : reads (ask f).
Proof. intros w. reflexivity. Qed.

Lemma reads_table_name suffix : reads (table_name suffix).
Proof. intros w. reflexivity. Qed.

Ltac keeps :=
  repeat first
    [ apply keeps_event_send
    | apply keeps_event_reads;
      solve [auto using reads_ask, reads_table_name with reads | intros ?; reflexivity]
    | apply keeps_event_try_except; [|intros ?]
    | apply keeps_event_bind; [|intros ?] ].

Section PostTriggers.
Variable parse : string -> option json.

Lemma post_confirmation_try_keeps_event : keeps_event (PostConfirmation.handler_try parse).
Proof.
  unfold PostConfirmation.handler_try, PostConfirmation.initialize_user_profile,
    PostConfirmation.initialize_graph_context, PostConfirmation.send_welcome_notification.
  keeps.
Qed.

Lemma post_authentication_try_keeps_event : keeps_event (PostAuthentication.handler_try parse).
Proof.
  unfold PostAuthentication.handler_try, PostAuthentication.update_user_login_info,
    PostAuthentication.cache_user_context, PostAuthentication.update_session_metrics.
  keeps.
Qed.

Lemma post_confirmation_handler_run w :
  (PostConfirmation.handler parse w).1 = Ok (JDict (event w)) /\
  event (PostConfirmation.handler parse w).2 = event w.
Proof.
  pose proof (post_confirmation_try_keeps_event w) as Hkeep.
  unfold PostConfirmation.handler, try_except.
  destruct (PostConfirmation.handler_try parse w) as [[v|e] w'] eqn:Htry; simpl in *.
  - split; [|exact Hkeep]. unfold PostConfirmation.handler_try in Htry.
    repeat bind_inv Htry. unfold PostConfirmation.the_event in Htry.
    injection Htry as <- <-. rewrite Hkeep. reflexivity.
  - rewrite Hkeep. split; reflexivity.
Qed.

Lemma post_authentication_handler_run w :
  (PostAuthentication.handler parse w).1 = Ok (JDict (event w)) /\
  event (PostAuthentication.handler parse w).2 = event w.
Proof.
  pose proof (post_authentication_try_keeps_event w) as Hkeep.
  unfold PostAuthentication.handler, try_except.
  destruct (PostAuthentication.handler_try parse w) as [[v|e] w'] eqn:Htry; simpl in *.
  - split; [|exact Hkeep]. unfold PostAuthentication.handler_try in Htry.
    repeat bind_inv Htry. unfold PostAuthentication.the_event in Htry.
    injection Htry as <- <-. rewrite Hkeep. reflexivity.
  - rewrite Hkeep. split; reflexivity.
Qed.

End PostTriggers.

(** *** pre_signup.py and pre_authentication.py *)

Lemma reads_validate_age strptime today birthdate :
  reads (PreSignup.validate_age strptime today birthdate).
Proof.
  intros w. unfold PreSignup.validate_age, PreSignup.strptime_date, try_except, bind.
  destruct birthdate; try reflexivity.
  destruct (strptime s) as [[[y m] d]|]; [|reflexivity].
  destruct today as [[ty tm] td]. reflexivity.
Qed.

Lemma pre_signup_propagates strptime today json_dumps event e :
  (PreSignup.handler_try strptime today json_dumps event).1 = Raise e ->
  (PreSignup.handler strptime today json_dumps event).1 = Raise e.
Proof.
  unfold PreSignup.handler, try_except.
  destruct (PreSignup.handler_try strptime today json_dumps event) as [[v|e'] w']; simpl;
    [discriminate | exact id].
Qed.

(** A birthdate that fails the age check stops the handler at line 39, before
    the event is touched. *)
Lemma pre_signup_blocks strptime today json_dumps event request attributes birthdate :
  dict_get "request" event = Some (JDict request) ->
  dict_get "userAttributes" request = Some (JDict attributes) ->
  dict_get "birthdate" attributes = Some birthdate ->
  truthy birthdate = true ->
  (PreSignup.validate_age strptime today birthdate event).1 = Ok false ->
  PreSignup.handler strptime today json_dumps event =
    (Raise (ValueError "Users must be 13 years or older to register"), event).
Proof.
  intros Hreq Hattr Hbirth Htruthy Hage.
  pose proof (reads_validate_age strptime today birthdate event) as Hreads.
  unfold PreSignup.handler, PreSignup.handler_try, try_except, bind, the_event, get, ret, raise.
  rewrite Hreq. simpl. rewrite Hattr. simpl. rewrite Hbirth. simpl. rewrite Htruthy.
  destruct (PreSignup.validate_age strptime today birthdate event) as [r w'].
  simpl in Hage, Hreads. subst r w'. reflexivity.
Qed.

Lemma reads_validate_user_status user_id user_attributes :
  reads (PreAuthentication.validate_user_status user_id user_attributes).
Proof.
  unfold PreAuthentication.validate_user_status.
  apply reads_try_except; [|auto with reads].
  apply reads_bind; [auto with reads | intros email].
  destruct (negb (truthy email)); [auto with reads|].
  repeat (apply reads_bind; [auto with reads | intros ?]). auto with reads.
Qed.

Lemma pre_authentication_propagates event e :
  (PreAuthentication.handler_try event).1 = Raise e ->
  (PreAuthentication.handler event).1 = Raise e.
Proof.
  unfold PreAuthentication.handler, try_except.
  destruct (PreAuthentication.handler_try event) as [[v|e'] w']; simpl; [discriminate|].
  intros [= ->]. reflexivity.
Qed.

(** A user who is not in good standing stops the handler at line 37. *)
Lemma pre_authentication_blocks event request attributes :
  dict_get "request" event = Some (JDict request) ->
  dict_get "userAttributes" request = Some (JDict attributes) ->
  (PreAuthentication.validate_user_status
     (default (JStr "") (dict_get "userName" event)) (JDict attributes) event).1 = Ok false ->
  PreAuthentication.handler event =
    (Raise (ValueError "Account access has been restricted. Please contact support."), event).
Proof.
  intros Hreq Hattr Hstatus.
  pose proof (reads_validate_user_status
                (default (JStr "") (dict_get "userName" event)) (JDict attributes) event) as Hreads.
  unfold PreAuthentication.handler, PreAuthentication.handler_try, try_except, bind,
    the_event, get, ret, raise, PreAuthentication.log_authentication_attempt.
  rewrite Hreq. simpl. rewrite Hattr. simpl.
  destruct (PreAuthentication.validate_user_status _ _ event) as [r w'].
  simpl in Hstatus, Hreads. subst r w'. reflexivity.
Qed.

(** *** The failure policy *)

(** C9. The custom-message, post-confirmation and post-authentication handlers
    never raise.  The custom-message handler returns the event, and when
    anything in its [try] block raised, the event it returns is the one it
    received, with nothing written to it; the post-confirmation and
    post-authentication handlers return the event they received whatever
    happens inside, DynamoDB failures included.  In the pre-signup and
    pre-authentication handlers every exception of the [try] block leaves
    the handler as a raised exception, in particular the failed age check
    and the failed account check, which raise before anything is written. *)
Theorem identity_trigger_failure_policy
    (signup_message resend_code_message forgot_password_message : json -> json -> string)
    (update_attribute_message verify_attribute_message authentication_message : json -> string)
    (parse : string -> option json)
    (strptime : string -> option (Z * Z * Z)) (today : Z * Z * Z)
    (json_dumps : json -> string) :
  (forall event,
     exists event',
       CustomMessage.handler signup_message resend_code_message forgot_password_message
         update_attribute_message verify_attribute_message authentication_message event
       = (Ok (JDict event'), event') /\
       (raises (CustomMessage.handler_try signup_message resend_code_message
                  forgot_password_message update_attribute_message verify_attribute_message
                  authentication_message event).1 -> event' = event)) /\
  (forall w, (PostConfirmation.handler parse w).1 = Ok (JDict (Cognito.event w)) /\
             Cognito.event (PostConfirmation.handler parse w).2 = Cognito.event w) /\
  (forall w, (PostAuthentication.handler parse w).1 = Ok (JDict (Cognito.event w)) /\
             Cognito.event (PostAuthentication.handler parse w).2 = Cognito.event w) /\
  (forall event e,
     (PreSignup.handler_try strptime today json_dumps event).1 = Raise e ->
     (PreSignup.handler strptime today json_dumps event).1 = Raise e) /\
  (forall event request attributes birthdate,
     dict_get "request" event = Some (JDict request) ->
     dict_get "userAttributes" request = Some (JDict attributes) ->
     dict_get "birthdate" attributes = Some birthdate ->
     truthy birthdate = true ->
     (PreSignup.validate_age strptime today birthdate event).1 = Ok false ->
     PreSignup.handler strptime today json_dumps event =
       (Raise (ValueError "Users must be 13 years or older to register"), event)) /\
  (forall event e,
     (PreAuthentication.handler_try event).1 = Raise e ->
     (PreAuthentication.handler event).1 = Raise e) /\
  (forall event request attributes,
     dict_get "request" event = Some (JDict request) ->
     dict_get "userAttributes" request = Some (JDict attributes) ->
     (PreAuthentication.validate_user_status
        (default (JStr "") (dict_get "userName" event)) (JDict attributes) event).1 = Ok false ->
     PreAuthentication.handler event =
       (Raise (ValueError "Account access has been restricted. Please contact support."), event)).
Proof.
  repeat apply conj.
  - apply custom_message_handler_run.
  - apply post_confirmation_handler_run.
  - apply post_authentication_handler_run.
  - apply pre_signup_propagates.
  - apply pre_signup_blocks.
  - apply pre_authentication_propagates.
  - apply pre_authentication_blocks.
Qed.

Lemma identity_trigger_failure_policy_witness :
  (exists event',
     CustomMessage.handler (fun _ _ => "") (fun _ _ => "") (fun _ _ => "") (fun _ => "")
       (fun _ => "") (fun _ => "") Scenario.signup_without_code = (Ok (JDict event'), event') /\
     event' = Scenario.signup_without_code) /\
  PreSignup.handler Scenario.strptime Scenario.today (fun _ => "{}") Scenario.child_signup =
    (Raise (ValueError "Users must be 13 years or older to register"), Scenario.child_signup) /\
  PreAuthentication.handler Scenario.login_without_email =
    (Raise (ValueError "Account access has been restricted. Please contact support."),
     Scenario.login_without_email) /\
  (PostConfirmation.handler (fun _ => None) Scenario.outage).1 =
    Ok (JDict (Cognito.event Scenario.outage)).
Proof.
  destruct (identity_trigger_failure_policy
              (fun _ _ => "") (fun _ _ => "") (fun _ _ => "") (fun _ => "") (fun _ => "")
              (fun _ => "") (fun _ => None) Scenario.strptime Scenario.today (fun _ => "{}"))
    as (Hcustom & Hconf & _ & _ & Hsignup & _ & Hauth).
  split; [|split; [|split]].
  - destruct (Hcustom Scenario.signup_without_code) as (event' & Hrun & Hsame).
    exists event'. split; [exact Hrun | apply Hsame; vm_compute; exact I].
  - apply (Hsignup Scenario.child_signup
             [("userAttributes",
               JDict [("email", JStr "kid@example.org"); ("birthdate", JStr "2015-06-01")])]
             [("email", JStr "kid@example.org"); ("birthdate", JStr "2015-06-01")]
             (JStr "2015-06-01")); reflexivity.
  - apply (Hauth Scenario.login_without_email
             [("userAttributes", JDict [("email_verified", JStr "true")])]
             [("email_verified", JStr "true")]); reflexivity.
  - apply Hconf.
Defined.

End CognitoProperties.

(** ** Further properties of the rotation lambda *)
Module RotationExtras.
Import Rotation RotationProperties.

(** *** The handler as a whole *)


(** [setSecret] answers 200 for every non-empty secret identifier, also one
    the store does not know, and sends nothing to the store. *)
Theorem set_secret_touches_nothing secret_arn w :
  secret_arn <> "" ->
  handler (mkEvent (Some secret_arn) (Some "setSecret")) w =
    (Ok (success "setSecret" secret_arn), w).
Proof.
  intros Hne. rewrite handler_run. simpl SecretId.
  destruct secret_arn as [|a arn]; [congruence|]. reflexivity.
Qed.

Lemma set_secret_touches_nothing_witness :
  handler (mkEvent (Some "arn:unknown") (Some "setSecret")) Scenario.fresh =
    (Ok (success "setSecret" "arn:unknown"), Scenario.fresh) /\
  secrets Scenario.fresh !! "arn:unknown" = None.
Proof.
  split; [apply set_secret_touches_nothing; discriminate | vm_compute; reflexivity].
Defined.

(** *** Creation *)

(** A CURRENT value with none of the fields [api_key], [password], [key] makes
    [createSecret] return without error, with nothing generated and the
    store as it was. *)
Theorem create_secret_unknown_shape_is_noop secret_arn w value :
  value_at AWSCURRENT secret_arn w = Some value ->
  value !! "api_key" = None -> value !! "password" = None -> value !! "key" = None ->
  let out := create_secret secret_arn w in
  out.1 = Ok tt /\
  secrets out.2 = secrets w /\
  cursor out.2 = cursor w /\
  api_calls out.2 = (api_calls w ++ [GetSecretValue secret_arn None])%list.
Proof.
  intros Hcur Hapi Hpw Hkey. cbv zeta.
  rewrite create_secret_run. cbv zeta. rewrite Hcur.
  unfold classify, contains. rewrite Hapi, Hpw, Hkey.
  rewrite !bool_decide_eq_false_2 by (intros [? [=]]). repeat split.
Qed.

Lemma create_secret_unknown_shape_is_noop_witness :
  (create_secret Scenario.arn Scenario.opaque).1 = Ok tt /\
  secrets (create_secret Scenario.arn Scenario.opaque).2 = secrets Scenario.opaque /\
  cursor (create_secret Scenario.arn Scenario.opaque).2 = cursor Scenario.opaque /\
  api_calls (create_secret Scenario.arn Scenario.opaque).2 =
    (api_calls Scenario.opaque ++ [GetSecretValue Scenario.arn None])%list.
Proof.
  apply (create_secret_unknown_shape_is_noop Scenario.arn Scenario.opaque
           {["token" := "abc"; "owner" := "ops"]}); vm_compute; reflexivity.
Defined.

(** Whatever the secret holds, [createSecret] sends one request, the read of
    the CURRENT value, and the store after the call is the store before it:
    no version is ever written. *)
Theorem create_secret_only_reads secret_arn w :
  secrets (create_secret secret_arn w).2 = secrets w /\
  api_calls (create_secret secret_arn w).2 = (api_calls w ++ [GetSecretValue secret_arn None])%list.
Proof.
  split; [apply create_secret_never_writes|].
  rewrite create_secret_run. cbv zeta.
  destruct (value_at _ _ _) as [value|]; [destruct (classify value)|]; reflexivity.
Qed.

(** *** Generated values *)

Lemma sextet_is_urlsafe n : In (sextet n) (list_ascii_of_string urlsafe_digits).
Proof.
  unfold sextet.
  destruct (get_in_range urlsafe_digits (N.to_nat (n mod 64)%N)) as (c & Hc & Hin).
  { pose proof (N.mod_upper_bound n 64). change (String.length urlsafe_digits) with 64%nat. lia. }
  rewrite Hc. exact Hin.
Qed.

Lemma urlsafe_b64encode_shape_upto fuel bs :
  (length bs <= fuel)%nat ->
  String.length (urlsafe_b64encode bs) = ((4 * length bs + 2) / 3)%nat /\
  Forall (fun c => In c (list_ascii_of_string urlsafe_digits))
         (list_ascii_of_string (urlsafe_b64encode bs)).
Proof.
  revert bs. induction fuel as [|fuel IH]; intros bs Hlen.
  - destruct bs; [|simpl in Hlen; lia]. split; [reflexivity | constructor].
  - destruct bs as [|a [|b [|c rest]]].
    + split; [reflexivity | constructor].
    + split; [reflexivity|]. cbn [urlsafe_b64encode list_ascii_of_string].
      repeat (constructor; [apply sextet_is_urlsafe|]). constructor.
    + split; [reflexivity|]. cbn [urlsafe_b64encode list_ascii_of_string].
      repeat (constructor; [apply sextet_is_urlsafe|]). constructor.
    + destruct (IH rest) as [Hl Hall]; [simpl in Hlen; lia|].
      split.
      * cbn [urlsafe_b64encode String.length length]. rewrite Hl.
        replace (4 * S (S (S (length rest))) + 2)%nat with (4 * length rest + 2 + 4 * 3)%nat by lia.
        rewrite Nat.div_add by discriminate. lia.
      * cbn [urlsafe_b64encode list_ascii_of_string].
        repeat (constructor; [apply sextet_is_urlsafe|]). exact Hall.
Qed.

Lemma token_urlsafe_run nbytes w :
  exists key,
    token_urlsafe nbytes w = (Ok key, drawn (N.of_nat nbytes) w) /\
    len key = ((4 * nbytes + 2) / 3)%nat /\
    Forall (fun c => In c (list_ascii_of_string urlsafe_digits)) (list_ascii_of_string key).
Proof.
  destruct (token_bytes_run nbytes w) as (bs & Hbs & Hlen).
  exists (urlsafe_b64encode bs). unfold token_urlsafe, bind. rewrite Hbs.
  destruct (urlsafe_b64encode_shape_upto (length bs) bs (le_n _)) as [Hl Hall].
  split; [reflexivity|]. split; [|exact Hall]. unfold len. rewrite Hl, Hlen. reflexivity.
Qed.

(** [secrets.token_urlsafe(n)] never fails, reads [n] values from the random
    source and delivers the unpadded base64 text of [n] bytes: ceil(4n/3)
    characters, all of them letters, digits, '-' or '_'; for the 32 bytes of
    [createSecret] that is 43 characters. *)
Theorem token_urlsafe_shape nbytes w :
  (exists key,
     token_urlsafe nbytes w = (Ok key, drawn (N.of_nat nbytes) w) /\
     len key = ((4 * nbytes + 2) / 3)%nat /\
     Forall (fun c => In c (list_ascii_of_string urlsafe_digits)) (list_ascii_of_string key)) /\
  (exists key, token_urlsafe 32 w = (Ok key, drawn 32 w) /\ len key = 43%nat).
Proof.
  split; [apply token_urlsafe_run|].
  destruct (token_urlsafe_run 32 w) as (key & Hrun & Hlen & _).
  exists key. split; [exact Hrun | exact Hlen].
Qed.

(** What generation delivers passes validation: a PENDING value whose
    [password] is a generated password is accepted by [testSecret], and so is
    one without [password] field whose [key] is a generated key. *)
Theorem generated_values_pass_test_secret w secret_arn w' value :
  (forall password,
     (join_choices password_alphabet 32 w).1 = Ok password ->
     value_at AWSPENDING secret_arn w' = Some (<["password" := password]> value) ->
     (test_secret secret_arn w').1 = Ok tt) /\
  (forall key,
     (token_urlsafe 32 w).1 = Ok key ->
     value !! "password" = None ->
     value_at AWSPENDING secret_arn w' = Some (<["key" := key]> value) ->
     (test_secret secret_arn w').1 = Ok tt).
Proof.
  split.
  - intros password Hgen Hpending.
    destruct (join_choices_run password_alphabet 32 w) as (pw & Hpw & Hlen & _); [discriminate|].
    rewrite Hpw in Hgen. injection Hgen as <-.
    rewrite test_secret_run, Hpending. simpl. rewrite lookup_insert_eq.
    unfold len. rewrite Hlen. reflexivity.
  - intros key Hgen Hnone Hpending.
    destruct (token_urlsafe_run 32 w) as (k & Hk & Hlen & _).
    rewrite Hk in Hgen. injection Hgen as <-.
    rewrite test_secret_run, Hpending. simpl.
    rewrite lookup_insert_ne by discriminate. rewrite Hnone, lookup_insert_eq.
    rewrite Hlen. reflexivity.
Qed.

Lemma generated_values_pass_test_secret_witness :
  (test_secret Scenario.arn Scenario.staged_password).1 = Ok tt /\
  (test_secret Scenario.arn Scenario.staged_key).1 = Ok tt.
Proof.
  split.
  - apply (proj1 (generated_values_pass_test_secret Scenario.fresh Scenario.arn
                    Scenario.staged_password {["username" := "admin"]})
             Scenario.generated_password); vm_compute; reflexivity.
  - apply (proj2 (generated_values_pass_test_secret Scenario.fresh Scenario.arn
                    Scenario.staged_key ∅)
             Scenario.generated_key); vm_compute; reflexivity.
Defined.

(** *** Promotion *)

Lemma finish_secret_finds_no_pending_witness :
  (finish_secret Scenario.arn Scenario.mid_cycle).1 = Raise (ClientError "ParamValidationError") /\
  secrets (finish_secret Scenario.arn Scenario.mid_cycle).2 = secrets Scenario.mid_cycle.
Proof.
  destruct (finish_secret_finds_no_pending Scenario.arn Scenario.mid_cycle
              {["v1" := mkVersion {["password" := "old"]} [AWSCURRENT];
                "v2" := mkVersion {["password" := "Xk3!Xk3!Xk3!Xk3!Xk3!Xk3!Xk3!Xk3!"]} [AWSPENDING]]})
    as (Hraise & Hsame & _).
  - vm_compute. reflexivity.
  - vm_compute. reflexivity.
  - split; assumption.
Defined.

Lemma finish_secret_keeps_pending_witness :
  (finish_secret Scenario.arn Scenario.named).1 = Ok tt /\
  exists s' v', secrets (finish_secret Scenario.arn Scenario.named).2 !! Scenario.arn = Some s' /\
                s' !! "AWSPENDING" = Some v' /\ AWSPENDING ∈ VersionStages v'.
Proof.
  split; [vm_compute; reflexivity|].
  apply (finish_secret_keeps_pending Scenario.arn Scenario.named
           {["v1" := mkVersion {["password" := "old"]} [AWSCURRENT];
             "AWSPENDING" := mkVersion {["password" := "Xk3!Xk3!Xk3!Xk3!Xk3!Xk3!Xk3!Xk3!"]}
                                       [AWSPENDING]]}
           "AWSPENDING"
           (mkVersion {["password" := "Xk3!Xk3!Xk3!Xk3!Xk3!Xk3!Xk3!Xk3!"]} [AWSPENDING])).
  - vm_compute. reflexivity.
  - vm_compute. reflexivity.
  - apply (bool_decide_unpack _). vm_compute. reflexivity.
Defined.

(** *** Whole cycles *)

Lemma handler_keeps_store ev w :
  map_Forall (fun _ (s : secret) => s !! "AWSPENDING" = None) (secrets w) ->
  secrets (handler ev w).2 = secrets w.
Proof.
  intros Hids. rewrite handler_run.
  destruct (SecretId ev) as [[|a arn]|]; try reflexivity.
  cbv zeta. unfold route. repeat case_bool_decide.
  - pose proof (create_secret_never_writes (String a arn) w) as Hkeep.
    destruct (create_secret (String a arn) w) as [[[]|e] w']; exact Hkeep.
  - reflexivity.
  - rewrite test_secret_run.
    repeat match goal with |- context [match ?x with _ => _ end] => destruct x end; reflexivity.
  - rewrite finish_secret_run. cbv zeta.
    destruct (secrets w !! String a arn) as [s|] eqn:Hs; [|reflexivity].
    rewrite (Hids _ _ Hs). reflexivity.
  - reflexivity.
Qed.

(** In a store where no version id is the word "AWSPENDING", no sequence of
    invocations, whatever the steps and identifiers, changes any secret: no
    version is added and no label moves. *)
Theorem rotation_never_changes_store evs w :
  map_Forall (fun _ (s : secret) => s !! "AWSPENDING" = None) (secrets w) ->
  secrets (invoke_all evs w) = secrets w.
Proof.
  revert w. induction evs as [|ev evs IH]; intros w Hids; simpl; [reflexivity|].
  pose proof (handler_keeps_store ev w Hids) as Hstep.
  rewrite IH; [exact Hstep | rewrite Hstep; exact Hids].
Qed.

Lemma rotation_never_changes_store_witness :
  secrets (invoke_all Scenario.cycle Scenario.mid_cycle) = secrets Scenario.mid_cycle.
Proof.
  apply rotation_never_changes_store.
  apply (bool_decide_unpack _). vm_compute. reflexivity.
Defined.

(** A secret classified as manual never gets past validation through the
    handler: [createSecret] answers 200 and stages nothing, and the
    [testSecret] that follows finds no PENDING version and answers 500. *)
Theorem manual_secret_stalls_at_test secret_arn w value :
  secret_arn <> "" ->
  value_at AWSCURRENT secret_arn w = Some value ->
  contains "api_key" value = true ->
  version_at AWSPENDING secret_arn w = None ->
  let created := handler (mkEvent (Some secret_arn) (Some "createSecret")) w in
  created.1 = Ok (success "createSecret" secret_arn) /\
  (handler (mkEvent (Some secret_arn) (Some "testSecret")) created.2).1 =
    Ok (failure (ClientError "ResourceNotFoundException")
          (mkEvent (Some secret_arn) (Some "testSecret"))).
Proof.
  intros Hne Hcur Hapi Hpending. cbv zeta.
  rewrite !handler_run. simpl SecretId. destruct secret_arn as [|a arn]; [congruence|].
  cbv zeta. simpl default.
  change (route "createSecret" (String a arn)) with (create_secret (String a arn)).
  change (route "testSecret" (String a arn)) with (test_secret (String a arn)).
  rewrite create_secret_run. cbv zeta. rewrite Hcur. unfold classify. rewrite Hapi.
  split; [reflexivity|].
  rewrite test_secret_run. unfold value_at. cbn [snd].
  change (version_at AWSPENDING (String a arn) (logged (GetSecretValue (String a arn) None) w))
    with (version_at AWSPENDING (String a arn) w).
  rewrite Hpending. reflexivity.
Qed.

Lemma manual_secret_stalls_at_test_witness :
  (handler (mkEvent (Some Scenario.arn) (Some "createSecret")) Scenario.external).1 =
    Ok (success "createSecret" Scenario.arn) /\
  (handler (mkEvent (Some Scenario.arn) (Some "testSecret"))
     (handler (mkEvent (Some Scenario.arn) (Some "createSecret")) Scenario.external).2).1 =
    Ok (failure (ClientError "ResourceNotFoundException")
          (mkEvent (Some Scenario.arn) (Some "testSecret"))).
Proof.
  apply (manual_secret_stalls_at_test Scenario.arn Scenario.external
           {["api_key" := "sk-live-0123456789abcdef"]}).
  - discriminate.
  - vm_compute. reflexivity.
  - vm_compute. reflexivity.
  - vm_compute. reflexivity.
Defined.

(** For a secret identifier the store does not know, [createSecret],
    [testSecret] and [finishSecret] are answered 500 with the store's
    not-found error, after one refused request and with the store as it was. *)
Theorem unknown_secret_is_reported secret_arn step w :
  secret_arn <> "" ->
  secrets w !! secret_arn = None ->
  step ∈ ["createSecret"; "testSecret"; "finishSecret"] ->
  let out := handler (mkEvent (Some secret_arn) (Some step)) w in
  out.1 = Ok (mkResponse 500 [("error", "ResourceNotFoundException"); ("secretArn", secret_arn)]) /\
  secrets out.2 = secrets w /\
  length (api_calls out.2) = S (length (api_calls w)).
Proof.
  intros Hne Hnone Hstep. cbv zeta. rewrite handler_run. simpl SecretId. simpl Step.
  destruct secret_arn as [|a arn]; [congruence|]. cbv zeta. simpl default.
  assert (Hversion : forall stage, version_at stage (String a arn) w = None)
    by (intros stage; unfold version_at; rewrite Hnone; reflexivity).
  rewrite !elem_of_cons in Hstep. destruct Hstep as [-> | [-> | [-> | Hin]]].
  - change (route "createSecret" (String a arn)) with (create_secret (String a arn)).
    rewrite create_secret_run. cbv zeta. unfold value_at. rewrite Hversion. simpl.
    rewrite length_app. simpl. repeat split. lia.
  - change (route "testSecret" (String a arn)) with (test_secret (String a arn)).
    rewrite test_secret_run. unfold value_at. rewrite Hversion. simpl.
    rewrite length_app. simpl. repeat split. lia.
  - change (route "finishSecret" (String a arn)) with (finish_secret (String a arn)).
    rewrite finish_secret_run. cbv zeta. rewrite Hnone. simpl.
    rewrite length_app. simpl. repeat split. lia.
  - inversion Hin.
Qed.

Lemma unknown_secret_is_reported_witness :
  (handler (mkEvent (Some "arn:unknown") (Some "finishSecret")) Scenario.fresh).1 =
    Ok (mkResponse 500 [("error", "ResourceNotFoundException"); ("secretArn", "arn:unknown")]).
Proof.
  apply (unknown_secret_is_reported "arn:unknown" "finishSecret" Scenario.fresh).
  - discriminate.
  - vm_compute. reflexivity.
  - apply (bool_decide_unpack _). vm_compute. reflexivity.
Defined.

End RotationExtras.

(** ** Further properties of the identity triggers *)
Module CognitoExtras.
Import Cognito CognitoProperties.

(** *** Dicts *)

Lemma dict_get_set_ne key key' v d :
  key <> key' -> dict_get key' (dict_set key v d) = dict_get key' d.
Proof.
  intros Hne. induction d as [|[k x] d IH]; simpl.
  - destruct (String.eqb_spec key key'); [congruence | reflexivity].
  - destruct (String.eqb_spec k key) as [->|Hk]; simpl.
    + destruct (String.eqb_spec key key'); [congruence | reflexivity].
    + destruct (String.eqb_spec k key'); [reflexivity | exact IH].
Qed.

Lemma dict_set_set key v v' d : dict_set key v' (dict_set key v d) = dict_set key v' d.
Proof.
  induction d as [|[k x] d IH]; simpl.
  - rewrite String.eqb_refl. reflexivity.
  - destruct (String.eqb k key) eqn:E; simpl; rewrite E; [reflexivity | rewrite IH; reflexivity].
Qed.

Lemma dict_set_same key v d : dict_get key d = Some v -> dict_set key v d = d.
Proof.
  induction d as [|[k x] d IH]; simpl; [discriminate|].
  destruct (String.eqb k key) eqn:E.
  - intros [= ->]. reflexivity.
  - intros H. rewrite (IH H). reflexivity.
Qed.

(** *** pre_signup.py: the age check *)

(** [validate_age] never raises and never touches the event.  For a birthdate
    the date parser reads, it answers True exactly when the thirteenth
    birthday is today or earlier. *)
Theorem validate_age_thirteenth_birthday strptime year month day s birth_year birth_month birth_day w :
  strptime s = Some (birth_year, birth_month, birth_day) ->
  exists old_enough,
    PreSignup.validate_age strptime (year, month, day) (JStr s) w = (Ok old_enough, w) /\
    (old_enough = true <->
     (birth_year + 13 < year \/
      (birth_year + 13 = year /\
       (birth_month < month \/ (birth_month = month /\ birth_day <= day)))))%Z.
Proof.
  intros Hparse.
  unfold PreSignup.validate_age, PreSignup.strptime_date, try_except, bind, ret.
  rewrite Hparse. eexists. split; [reflexivity|].
  rewrite Z.leb_le.
  destruct (Z.ltb_spec month birth_month); simpl.
  - lia.
  - destruct (Z.eqb_spec month birth_month); simpl; [|lia].
    destruct (Z.ltb_spec day birth_day); lia.
Qed.

Lemma validate_age_thirteenth_birthday_witness :
  exists old_enough,
    PreSignup.validate_age Scenario.strptime (2028, 6, 1)%Z (JStr "2015-06-01")
      Scenario.child_signup = (Ok old_enough, Scenario.child_signup) /\
    (old_enough = true <->
     (2015 + 13 < 2028 \/ (2015 + 13 = 2028 /\ (6 < 6 \/ (6 = 6 /\ 1 <= 1)))))%Z.
Proof.
  apply (validate_age_thirteenth_birthday Scenario.strptime 2028 6 1 "2015-06-01" 2015 6 1).
  reflexivity.
Defined.

(** A birthdate that is not a string, or a string the date parser rejects,
    makes [validate_age] answer False rather than raise. *)
Theorem validate_age_rejects_unreadable strptime today birthdate w :
  (forall s, birthdate = JStr s -> strptime s = None) ->
  PreSignup.validate_age strptime today birthdate w = (Ok false, w).
Proof.
  intros Hbad.
  unfold PreSignup.validate_age, PreSignup.strptime_date, try_except, bind.
  destruct birthdate; try reflexivity.
  rewrite (Hbad s eq_refl). reflexivity.
Qed.

Lemma validate_age_rejects_unreadable_witness :
  PreSignup.validate_age Scenario.strptime Scenario.today (JNum 20150601) [] = (Ok false, []) /\
  PreSignup.validate_age Scenario.strptime Scenario.today (JStr "01/06/2015") [] = (Ok false, []).
Proof.
  split.
  - apply validate_age_rejects_unreadable. intros s Hs. discriminate Hs.
  - apply validate_age_rejects_unreadable. intros s Hs. injection Hs as <-. reflexivity.
Defined.

(** When the age check passes or there is no birthdate to check, and the
    event has its request attributes and a response object, the handler
    returns the event with the request's attributes, completed by the default
    consent version and preferences where missing, as the response's
    [userAttributes]; the request's own attributes are completed in the same
    way, being the same object; [autoConfirmUser] and [autoVerifyEmail] are
    set exactly for the trigger source PreSignUp_ExternalProvider; every other
    key of the event is as it came.  A missing or empty birthdate skips the
    age check altogether. *)
Theorem pre_signup_result strptime today json_dumps event request attributes response :
  dict_get "request" event = Some (JDict request) ->
  dict_get "userAttributes" request = Some (JDict attributes) ->
  dict_get "response" event = Some (JDict response) ->
  let birthdate := default JNull (dict_get "birthdate" attributes) in
  truthy birthdate = false \/
  (PreSignup.validate_age strptime today birthdate event).1 = Ok true ->
  let external :=
    eq_str (default JNull (dict_get "triggerSource" event)) "PreSignUp_ExternalProvider" in
  let attributes' :=
    setdefault "custom:user_preferences" (JStr (json_dumps PreSignup.default_preferences))
      (setdefault "custom:consent_version" (JStr "1.0") attributes) in
  let flagged :=
    if external
    then dict_set "autoVerifyEmail" (JBool true) (dict_set "autoConfirmUser" (JBool true) response)
    else response in
  exists event',
    PreSignup.handler strptime today json_dumps event = (Ok (JDict event'), event') /\
    dict_get "response" event' =
      Some (JDict (dict_set "userAttributes" (JDict attributes') flagged)) /\
    dict_get "request" event' =
      Some (JDict (dict_set "userAttributes" (JDict attributes') request)) /\
    forall key, key <> "request" -> key <> "response" -> dict_get key event' = dict_get key event.
Proof.
  intros Hreq Hattr Hresp. cbv zeta. intros Hage.
  pose proof (reads_validate_age strptime today
                (default JNull (dict_get "birthdate" attributes)) event) as Hreads.
  unfold PreSignup.handler, PreSignup.handler_try, PreSignup.set_user_attribute,
    PreSignup.response_user_attributes, try_except.
  unfold bind, the_event, get, getitem, setitem, contains, ret, raise.
  rewrite Hreq. cbn [from_option id]. rewrite Hattr. cbn [from_option id].
  replace ((if truthy (default JNull (dict_get "birthdate" attributes))
            then _ else _) event) with (@Ok unit tt, event).
  2:{ destruct Hage as [-> | Hok]; [reflexivity|].
      destruct (truthy _); [|reflexivity].
      destruct (PreSignup.validate_age _ _ _ event) as [r w']. simpl in Hok, Hreads.
      subst r w'. reflexivity. }
  cbv beta iota.
  destruct (dict_get "custom:consent_version" attributes) as [consent|] eqn:Hconsent;
    destruct (dict_get "custom:user_preferences" attributes) as [preferences|] eqn:Hprefs;
    destruct (eq_str (default JNull (dict_get "triggerSource" event)) "PreSignUp_ExternalProvider");
    unfold setdefault; rewrite ?Hconsent; rewrite ?dict_get_set_ne by discriminate; rewrite ?Hprefs;
    repeat (first [ rewrite set_in_run | rewrite dict_get_set
                  | rewrite dict_get_set_ne by discriminate
                  | rewrite dict_set_set
                  | rewrite Hreq | rewrite Hresp | rewrite Hattr
                  | rewrite Hconsent | rewrite Hprefs
                  | rewrite (bool_decide_eq_true_2 (is_Some (Some _))) by eauto
                  | rewrite (bool_decide_eq_false_2 (is_Some None)) by (intros [? [=]]) ];
            cbv beta iota);
    (eexists; split; [reflexivity|]; split;
     [ rewrite ?dict_get_set_ne by discriminate; rewrite ?dict_get_set, ?dict_set_set; reflexivity
     | split;
       [ rewrite ?dict_get_set_ne by discriminate;
         rewrite ?dict_get_set, ?dict_set_set, ?Hreq, ?(dict_set_same _ _ _ Hattr); reflexivity
       | intros key Hkey Hkey'; rewrite ?dict_get_set_ne by congruence; reflexivity ] ]).
Qed.

Lemma pre_signup_result_witness :
  exists event',
    PreSignup.handler Scenario.strptime Scenario.today (fun _ => "{}") Scenario.apple_signup =
      (Ok (JDict event'), event') /\
    dict_get "response" event' =
      Some (JDict [("autoConfirmUser", JBool true); ("autoVerifyEmail", JBool true);
                   ("userAttributes",
                    JDict [("email", JStr "ada@example.org");
                           ("custom:consent_version", JStr "2.0");
                           ("custom:user_preferences", JStr "{}")])]) /\
    dict_get "request" event' =
      Some (JDict [("userAttributes",
                    JDict [("email", JStr "ada@example.org");
                           ("custom:consent_version", JStr "2.0");
                           ("custom:user_preferences", JStr "{}")])]).
Proof.
  destruct (pre_signup_result Scenario.strptime Scenario.today (fun _ => "{}")
              Scenario.apple_signup
              [("userAttributes",
                JDict [("email", JStr "ada@example.org"); ("custom:consent_version", JStr "2.0")])]
              [("email", JStr "ada@example.org"); ("custom:consent_version", JStr "2.0")]
              [("autoConfirmUser", JBool false)]
              eq_refl eq_refl eq_refl (or_introl eq_refl))
    as (event' & Hrun & Hresponse & Hrequest & _).
  exists event'. split; [exact Hrun|]. split; [exact Hresponse | exact Hrequest].
Defined.

(** An event without a response object makes the handler raise KeyError, also
    for a registration that passes the age check; the event is left as it
    came. *)
Theorem pre_signup_requires_response strptime today json_dumps event request attributes :
  dict_get "request" event = Some (JDict request) ->
  dict_get "userAttributes" request = Some (JDict attributes) ->
  dict_get "response" event = None ->
  let birthdate := default JNull (dict_get "birthdate" attributes) in
  truthy birthdate = false \/
  (PreSignup.validate_age strptime today birthdate event).1 = Ok true ->
  PreSignup.handler strptime today json_dumps event = (Raise (KeyError "response"), event).
Proof.
  intros Hreq Hattr Hresp. cbv zeta. intros Hage.
  pose proof (reads_validate_age strptime today
                (default JNull (dict_get "birthdate" attributes)) event) as Hreads.
  unfold PreSignup.handler, PreSignup.handler_try, PreSignup.set_user_attribute,
    PreSignup.response_user_attributes, try_except.
  unfold bind, the_event, get, getitem, setitem, contains, ret, raise.
  rewrite Hreq. cbn [from_option id]. rewrite Hattr. cbn [from_option id].
  replace ((if truthy (default JNull (dict_get "birthdate" attributes))
            then _ else _) event) with (@Ok unit tt, event).
  2:{ destruct Hage as [-> | Hok]; [reflexivity|].
      destruct (truthy _); [|reflexivity].
      destruct (PreSignup.validate_age _ _ _ event) as [r w']. simpl in Hok, Hreads.
      subst r w'. reflexivity. }
  cbv beta iota.
  destruct (eq_str (default JNull (dict_get "triggerSource" event)) "PreSignUp_ExternalProvider");
    repeat (first [ rewrite set_in_run | rewrite Hreq | rewrite Hresp | rewrite Hattr ];
            cbv beta iota);
    reflexivity.
Qed.

Lemma pre_signup_requires_response_witness :
  PreSignup.handler Scenario.strptime Scenario.today (fun _ => "{}") Scenario.login_unverified =
    (Raise (KeyError "response"), Scenario.login_unverified).
Proof.
  apply (pre_signup_requires_response Scenario.strptime Scenario.today (fun _ => "{}")
           Scenario.login_unverified
           [("userAttributes",
             JDict [("email", JStr "bob@example.org"); ("email_verified", JStr "false")])]
           [("email", JStr "bob@example.org"); ("email_verified", JStr "false")]
           eq_refl eq_refl eq_refl (or_introl eq_refl)).
Defined.

(** *** pre_authentication.py *)

(** For an event whose user attributes are a dict (or absent), the handler
    lets the sign-in through, returning the event as it received it, exactly
    when the [email] attribute is truthy and [email_verified] is a string or
    absent, whatever that string says; otherwise it raises the restriction
    error.  The event is never modified. *)
Theorem pre_authentication_outcome event request attributes :
  default (JDict []) (dict_get "request" event) = JDict request ->
  default (JDict []) (dict_get "userAttributes" request) = JDict attributes ->
  PreAuthentication.handler event =
    (if truthy (default (JStr "") (dict_get "email" attributes)) &&
        match default (JStr "false") (dict_get "email_verified" attributes) with
        | JStr _ => true
        | _ => false
        end
     then Ok (JDict event)
     else Raise (ValueError "Account access has been restricted. Please contact support."),
     event).
Proof.
  intros Hreq Hattr.
  unfold PreAuthentication.handler, PreAuthentication.handler_try,
    PreAuthentication.validate_user_status, PreAuthentication.log_authentication_attempt,
    try_except, bind, the_event, get, lower, ret, raise.
  rewrite Hreq, Hattr.
  destruct (truthy (default (JStr "") (dict_get "email" attributes))); simpl; [|reflexivity].
  destruct (default (JStr "false") (dict_get "email_verified" attributes)); reflexivity.
Qed.

Lemma pre_authentication_outcome_witness :
  PreAuthentication.handler Scenario.login_unverified =
    (Ok (JDict Scenario.login_unverified), Scenario.login_unverified).
Proof.
  apply (pre_authentication_outcome Scenario.login_unverified
           [("userAttributes",
             JDict [("email", JStr "bob@example.org"); ("email_verified", JStr "false")])]
           [("email", JStr "bob@example.org"); ("email_verified", JStr "false")]);
    reflexivity.
Defined.

(** *** post_confirmation.py and post_authentication.py: what is sent to DynamoDB *)





#[local] Hint Resolve reads_ret reads_raise reads_get reads_getitem reads_lower
  reads_json_loads_or reads_the_event : reads.

(** *** Events that differ in a few fields *)

Lemma differs_within_refl outer fields event : differs_within outer fields event event.
Proof. split; [reflexivity | left; reflexivity]. Qed.

Lemma differs_within_trans outer fields a b c :
  differs_within outer fields a b -> differs_within outer fields b c ->
  differs_within outer fields a c.
Proof.
  intros [Hab Hab'] [Hbc Hbc']. split.
  - intros key Hkey. rewrite Hbc, Hab by assumption. reflexivity.
  - destruct Hab' as [->|(d1 & d1' & Ha & Hb & Hf1)]; [exact Hbc'|].
    destruct Hbc' as [->|(d2 & d2' & Hb' & Hc & Hf2)].
    + right. exists d1, d1'. auto.
    + right. exists d1, d2'. repeat split; [assumption | assumption|].
      intros field Hfield. rewrite Hf2, <- Hf1 by assumption.
      rewrite Hb in Hb'. injection Hb' as ->. reflexivity.
Qed.

Lemma differs_within_set_in outer fields field v :
  field ∈ fields ->
  forall event, differs_within outer fields event (set_in outer field v event).2.
Proof.
  intros Hin event. rewrite set_in_run.
  destruct (dict_get outer event) as [[| | | | |d]|] eqn:Hd; try apply differs_within_refl.
  simpl. split.
  - intros key Hkey. apply dict_get_set_ne. congruence.
  - right. exists d, (dict_set field v d). split; [assumption|]. split; [apply dict_get_set|].
    intros f Hf. apply dict_get_set_ne. intros ->. contradiction.
Qed.

Lemma differs_within_reads {A} outer fields (m : M dict A) :
  reads m -> forall event, differs_within outer fields event (m event).2.
Proof. intros Hm event. rewrite Hm. apply differs_within_refl. Qed.

Lemma differs_within_bind {A B} outer fields (m : M dict A) (k : A -> M dict B) :
  (forall event, differs_within outer fields event (m event).2) ->
  (forall a event, differs_within outer fields event (k a event).2) ->
  forall event, differs_within outer fields event (bind m k event).2.
Proof.
  intros Hm Hk event. unfold bind. specialize (Hm event).
  destruct (m event) as [[a|e] event1]; simpl in *; [|exact Hm].
  eapply differs_within_trans; [exact Hm | apply Hk].
Qed.

Lemma differs_within_try_except {A} outer fields (m : M dict A) (h : exn -> M dict A) :
  (forall event, differs_within outer fields event (m event).2) ->
  (forall e event, differs_within outer fields event (h e event).2) ->
  forall event, differs_within outer fields event (try_except m h event).2.
Proof.
  intros Hm Hh event. unfold try_except. specialize (Hm event).
  destruct (m event) as [[a|e] event1]; simpl in *; [exact Hm|].
  eapply differs_within_trans; [exact Hm | apply Hh].
Qed.

(** *** custom_message.py *)

Section CustomMessage.
Import CustomMessage.
Variables signup_message resend_code_message forgot_password_message
  : json -> json -> string.
Variables update_attribute_message verify_attribute_message authentication_message
  : json -> string.

Ltac within :=
  repeat first
    [ apply differs_within_set_in; set_solver
    | apply differs_within_reads;
      solve [auto using reads_the_event, reads_code_parameter_of_event with reads]
    | apply differs_within_try_except; [|intros ?]
    | apply differs_within_bind; [|intros ?]
    | intros ? ].

Lemma custom_message_handler_within event :
  differs_within "response" ["emailSubject"; "emailMessage"] event
    (handler signup_message resend_code_message forgot_password_message
       update_attribute_message verify_attribute_message authentication_message event).2.
Proof.
  revert event. unfold handler, handler_try.
  apply differs_within_try_except; [|within].
  do 5 (apply differs_within_bind;
        [apply differs_within_reads; solve [auto using reads_the_event with reads] | intros ?]).
  apply differs_within_bind; [|within].
  repeat match goal with
         | |- forall event, differs_within _ _ event ((if ?c then _ else _) event).2 => destruct c
         end;
    unfold customize_signup_message, customize_resend_code_message,
      customize_forgot_password_message, customize_update_attribute_message,
      customize_verify_attribute_message, customize_authentication_message, set_response;
    within.
Qed.

(** Whatever the event, the handler returns it with, at most, the fields
    [emailSubject] and [emailMessage] of its response written: every other
    key of the event and every other field of the response is as it came. *)
Theorem custom_message_writes_only_the_email event :
  exists event',
    handler signup_message resend_code_message forgot_password_message
      update_attribute_message verify_attribute_message authentication_message event
    = (Ok (JDict event'), event') /\
    differs_within "response" ["emailSubject"; "emailMessage"] event event'.
Proof.
  pose proof (custom_message_handler_within event) as Hwithin.
  destruct (custom_message_handler_run signup_message resend_code_message
              forgot_password_message update_attribute_message verify_attribute_message
              authentication_message event) as (event' & Hrun & _).
  exists event'. rewrite Hrun in Hwithin. split; [exact Hrun | exact Hwithin].
Qed.

Abbreviation message_try :=
  (handler_try signup_message resend_code_message forgot_password_message
     update_attribute_message verify_attribute_message authentication_message).

Abbreviation message_handler :=
  (handler signup_message resend_code_message forgot_password_message
     update_attribute_message verify_attribute_message authentication_message).

Abbreviation message_for :=
  (email_for signup_message resend_code_message forgot_password_message
     update_attribute_message verify_attribute_message authentication_message).

(** A trigger source other than the six the handler routes gets the event
    back exactly as it came, whatever else the event holds. *)
Theorem custom_message_unknown_source_unchanged event :
  (forall source, dict_get "triggerSource" event = Some (JStr source) ->
                  message_for source JNull JNull = None) ->
  message_handler event = (Ok (JDict event), event).
Proof.
  intros Hunknown.
  unfold handler, handler_try, try_except, bind, the_event, get, ret, raise.
  destruct (default (JDict []) (dict_get "request" event)); try reflexivity.
  destruct (dict_get "triggerSource" event) as [[| | |source| |]|]; try reflexivity.
  specialize (Hunknown source eq_refl). unfold email_for in Hunknown. simpl.
  repeat match type of Hunknown with
         | (if ?c then _ else _) = None => destruct c; [discriminate|]
         end.
  reflexivity.
Qed.

(** For an event with a verification code and a response object, each of the
    six trigger sources gets its own subject and body written into the
    response, the given name defaulting to "Friend"; nothing else in the
    event changes. *)
Theorem custom_message_result event source request attributes response code subject message :
  dict_get "triggerSource" event = Some (JStr source) ->
  dict_get "request" event = Some (JDict request) ->
  default (JDict []) (dict_get "userAttributes" request) = JDict attributes ->
  dict_get "codeParameter" request = Some code ->
  dict_get "response" event = Some (JDict response) ->
  message_for source (default (JStr "Friend") (dict_get "given_name" attributes)) code =
    Some (subject, message) ->
  let event' :=
    dict_set "response"
      (JDict (dict_set "emailMessage" (JStr message)
                (dict_set "emailSubject" (JStr subject) response))) event in
  message_handler event = (Ok (JDict event'), event').
Proof.
  intros Hsource Hreq Hattr Hcode Hresp Hmail. cbv zeta.
  unfold handler, handler_try, try_except, bind, the_event, get, ret.
  rewrite Hsource, Hreq. cbn [from_option id]. rewrite Hattr. cbn [eq_str].
  unfold email_for in Hmail.
  repeat match type of Hmail with
         | (if ?c then _ else _) = _ => destruct c
         end; try discriminate; injection Hmail as <- <-;
    unfold customize_signup_message, customize_resend_code_message,
      customize_forgot_password_message, customize_update_attribute_message,
      customize_verify_attribute_message, customize_authentication_message,
      code_parameter_of_event, set_response, bind, the_event, get, getitem, ret;
    rewrite ?Hreq, ?Hcode; cbv beta iota;
    repeat (rewrite set_in_run, ?Hresp, ?dict_get_set; cbv beta iota);
    rewrite ?dict_set_set; reflexivity.
Qed.

(** A request without a verification code gets the event back as it came,
    whatever the trigger source: the lookup fails before anything is
    written and the handler swallows the failure. *)
Theorem custom_message_without_code_unchanged event request :
  dict_get "request" event = Some (JDict request) ->
  dict_get "codeParameter" request = None ->
  message_handler event = (Ok (JDict event), event).
Proof.
  intros Hreq Hcode.
  unfold handler, handler_try, try_except, bind, the_event, get, ret.
  rewrite Hreq. cbn [from_option id].
  destruct (default (JDict []) (dict_get "userAttributes" request)) as [| | | | |attributes];
  cbv beta iota;
  repeat match goal with
         | |- context [if ?c then _ else _] => destruct c
         end;
    unfold customize_signup_message, customize_resend_code_message,
      customize_forgot_password_message, customize_update_attribute_message,
      customize_verify_attribute_message, customize_authentication_message,
      code_parameter_of_event, set_response, bind, the_event, get, getitem, ret, raise;
    repeat (first [rewrite Hreq | rewrite Hcode]; cbv beta iota);
    reflexivity.
Qed.

End CustomMessage.

Lemma custom_message_unknown_source_unchanged_witness :
  CustomMessage.handler (fun _ _ => "") (fun _ _ => "") (fun _ _ => "") (fun _ => "") (fun _ => "")
    (fun _ => "") Scenario.admin_create_user =
  (Ok (JDict Scenario.admin_create_user), Scenario.admin_create_user).
Proof.
  apply (custom_message_unknown_source_unchanged (fun _ _ => "") (fun _ _ => "") (fun _ _ => "")
           (fun _ => "") (fun _ => "") (fun _ => "")).
  intros source Hsource. vm_compute in Hsource. injection Hsource as <-. reflexivity.
Defined.

Lemma custom_message_result_witness :
  let event' :=
    dict_set "response"
      (JDict [("smsMessage", JNull); ("emailMessage", JStr "Hi Ada, your code is {####}");
              ("emailSubject", JStr "InnerWorld - Reset Your Password")])
      Scenario.forgot_password in
  CustomMessage.handler (fun _ _ => "") (fun _ _ => "") (fun _ _ => "Hi Ada, your code is {####}")
    (fun _ => "") (fun _ => "") (fun _ => "") Scenario.forgot_password =
  (Ok (JDict event'), event').
Proof.
  apply (custom_message_result (fun _ _ => "") (fun _ _ => "")
           (fun _ _ => "Hi Ada, your code is {####}") (fun _ => "") (fun _ => "") (fun _ => "")
           Scenario.forgot_password "CustomMessage_ForgotPassword"
           [("userAttributes", JDict [("given_name", JStr "Ada")]);
            ("codeParameter", JStr "{####}")]
           [("given_name", JStr "Ada")]
           [("smsMessage", JNull); ("emailMessage", JNull); ("emailSubject", JNull)]
           (JStr "{####}")); reflexivity.
Defined.

Lemma custom_message_without_code_unchanged_witness :
  CustomMessage.handler (fun _ _ => "") (fun _ _ => "") (fun _ _ => "") (fun _ => "")
    (fun _ => "") (fun _ => "") Scenario.signup_without_code =
  (Ok (JDict Scenario.signup_without_code), Scenario.signup_without_code).
Proof.
  apply (custom_message_without_code_unchanged (fun _ _ => "") (fun _ _ => "") (fun _ _ => "")
           (fun _ => "") (fun _ => "") (fun _ => "") Scenario.signup_without_code
           [("userAttributes", JDict [("given_name", JStr "Ada")])]); reflexivity.
Defined.

End CognitoExtras.
